(** * DumbWatch: the digital watch controller of [dumbwatch.py]

    A shallow embedding of the [DigitalClock] application: its attributes,
    the periodic [update_time], the renderer [update_display] and the six
    button handlers, over a model of the parts of Python's [datetime] module
    the program calls.

    Methods are statements in a state-and-exception monad over the
    attributes of [self], the text of the four widgets and the system clock,
    which is a sequence of readings consumed by [datetime.now()].  Durations
    are exact counts of microseconds; a datetime keeps its date as a day
    ordinal.  The Textual framework (widget lookup, message delivery, the
    interval timer) is outside the model: it appears as the events [Tick]
    and [Pressed]. *)

From Stdlib Require Import ZArith List String Ascii Bool Lia.
From Stdlib Require Import DecimalString.
Import ListNotations.

Open Scope Z_scope.

(** ** Python values the program manipulates *)

(** Exceptions that the called library code can raise. *)
Inductive exn : Type :=
| ValueError
| IndexError
| OverflowError.

(** The outcome of evaluating a Python expression or running a statement. *)
Inductive outcome (A : Type) : Type :=
| Return (a : A)
| Raise (e : exn).
Arguments Return {A} a.
Arguments Raise {A} e.

Module Py.

(** [datetime.timedelta]: an exact count of microseconds.  CPython keeps the
    normalised triple (days, seconds, microseconds), which [days],
    [seconds] and [microseconds] below recover. *)
Definition timedelta : Type := Z.

Definition US_PER_SECOND : Z := 1000000.
Definition US_PER_MINUTE : Z := 60000000.
Definition US_PER_DAY : Z := 86400000000.

(** [timedelta.max.days]; a timedelta whose day count leaves
    [-MAX_DELTA_DAYS, MAX_DELTA_DAYS] cannot be built. *)
Definition MAX_DELTA_DAYS : Z := 999999999.

(** [date.max.toordinal()], the ordinal of 9999-12-31. *)
Definition MAXORDINAL : Z := 3652059.

Definition days (td : timedelta) : Z := td / US_PER_DAY.
Definition seconds (td : timedelta) : Z := (td mod US_PER_DAY) / US_PER_SECOND.
Definition microseconds (td : timedelta) : Z := td mod US_PER_SECOND.

(** [timedelta()] and [timedelta(minutes=n)]. *)
Definition timedelta_zero : timedelta := 0.
Definition timedelta_minutes (n : Z) : timedelta := n * US_PER_MINUTE.

(** [a - b] on timedeltas: the constructor refuses a day count out of
    range. *)
Definition timedelta_sub (a b : timedelta) : outcome timedelta :=
  let r := a - b in
  if (- MAX_DELTA_DAYS <=? days r) && (days r <=? MAX_DELTA_DAYS)
  then Return r else Raise OverflowError.

(** [int(td.total_seconds())]: truncation towards zero of the duration in
    seconds.  [total_seconds()] is a binary64 quotient in CPython; it is
    taken here as the exact quotient. *)
Definition int_total_seconds (td : timedelta) : Z := Z.quot td US_PER_SECOND.

(** [int(td.total_seconds() // 60)]: whole minutes, rounded down. *)
Definition int_total_seconds_floordiv_60 (td : timedelta) : Z :=
  td / US_PER_MINUTE.

(** The tests [td.total_seconds() > 0] and [td.total_seconds() <= 0]. *)
Definition total_seconds_gt_0 (td : timedelta) : bool := 0 <? td.
Definition total_seconds_le_0 (td : timedelta) : bool := td <=? 0.

(** [datetime.datetime], naive.  The calendar date is held as its proleptic
    Gregorian ordinal ([toordinal()]: 1 is 0001-01-01), the only view of
    the date that the arithmetic of the [datetime] module uses. *)
Record datetime : Type := mk_datetime {
  ordinal : Z;
  hour : Z;
  minute : Z;
  second : Z;
  microsecond : Z
}.

(** The values the [datetime] constructor accepts. *)
Definition wf_datetime (d : datetime) : Prop :=
  1 <= ordinal d <= MAXORDINAL /\
  0 <= hour d < 24 /\
  0 <= minute d < 60 /\
  0 <= second d < 60 /\
  0 <= microsecond d < US_PER_SECOND.

(** Microseconds since the start of ordinal day 0. *)
Definition to_us (d : datetime) : Z :=
  (((ordinal d * 24 + hour d) * 60 + minute d) * 60 + second d)
    * US_PER_SECOND + microsecond d.

(** [a - b] on datetimes: [timedelta(days1 - days2, secs1 - secs2,
    us1 - us2)]. *)
Definition datetime_sub (a b : datetime) : timedelta := to_us a - to_us b.

(** [d - td]: CPython adds the negated timedelta to
    [timedelta(d.toordinal(), hours=d.hour, ...)], splits the sum with
    [divmod] and refuses a day count outside [1, MAXORDINAL]. *)
Definition datetime_sub_timedelta (d : datetime) (td : timedelta)
  : outcome datetime :=
  let delta := to_us d - td in
  let rem := seconds delta mod 3600 in
  if (0 <? days delta) && (days delta <=? MAXORDINAL)
  then Return {| ordinal := days delta;
                 hour := seconds delta / 3600;
                 minute := rem / 60;
                 second := rem mod 60;
                 microsecond := microseconds delta |}
  else Raise OverflowError.

Definition check_field (lo hi : Z) (v : option Z) (current : Z)
  : outcome Z :=
  match v with
  | None => Return current
  | Some x => if (lo <=? x) && (x <=? hi) then Return x else Raise ValueError
  end.

(** [d.replace(hour=.., minute=.., second=.., microsecond=..)]: each given
    field is range-checked by the constructor, the others are kept. *)
Definition replace (d : datetime) (h m s us : option Z) : outcome datetime :=
  match check_field 0 23 h (hour d) with
  | Raise e => Raise e
  | Return h' =>
    match check_field 0 59 m (minute d) with
    | Raise e => Raise e
    | Return m' =>
      match check_field 0 59 s (second d) with
      | Raise e => Raise e
      | Return s' =>
        match check_field 0 999999 us (microsecond d) with
        | Raise e => Raise e
        | Return us' =>
          Return {| ordinal := ordinal d; hour := h'; minute := m';
                    second := s'; microsecond := us' |}
        end
      end
    end
  end.

(** [str(n)] for an int. *)
Definition str (n : Z) : string := NilZero.string_of_int (Z.to_int n).

Fixpoint zeros (k : nat) : string :=
  match k with
  | O => EmptyString
  | S k' => String "0" (zeros k')
  end.

(** The format spec [02d]: sign first, then zero fill to width 2. *)
Definition format_02d (n : Z) : string :=
  let sign := if n <? 0 then "-"%string else EmptyString in
  let digits := str (Z.abs n) in
  (sign ++ zeros (2 - String.length sign - String.length digits) ++ digits)%string.

(** [sep.join(parts)]. *)
Definition join (sep : string) (parts : list string) : string :=
  String.concat sep parts.

End Py.
Import Py.

(** ** The application state *)

Inductive ClockMode : Type :=
| TIME
| SET_HOUR
| SET_MINUTE
| SET_SECOND
| ALARM
| SET_ALARM_HOUR
| SET_ALARM_MINUTE
| STOPWATCH
| TIMER.

(** [ClockMode.value]. *)
Definition value (m : ClockMode) : string :=
  match m with
  | TIME => "TIME"
  | SET_HOUR => "SET HOUR"
  | SET_MINUTE => "SET MINUTE"
  | SET_SECOND => "SET SECOND"
  | ALARM => "ALARM"
  | SET_ALARM_HOUR => "SET ALARM HOUR"
  | SET_ALARM_MINUTE => "SET ALARM MINUTE"
  | STOPWATCH => "STOPWATCH"
  | TIMER => "TIMER"
  end.

Definition ClockMode_eqb (a b : ClockMode) : bool :=
  match a, b with
  | TIME, TIME | SET_HOUR, SET_HOUR | SET_MINUTE, SET_MINUTE
  | SET_SECOND, SET_SECOND | ALARM, ALARM | SET_ALARM_HOUR, SET_ALARM_HOUR
  | SET_ALARM_MINUTE, SET_ALARM_MINUTE | STOPWATCH, STOPWATCH
  | TIMER, TIMER => true
  | _, _ => false
  end.

(** [m in ms]. *)
Definition mode_in (m : ClockMode) (ms : list ClockMode) : bool :=
  existsb (ClockMode_eqb m) ms.

(** The attributes [__init__] gives a [DigitalClock]. *)
Record ClockState : Type := mk_state {
  current_time : datetime;
  display_time : datetime;
  alarm_time : datetime;
  alarm_enabled : bool;
  mode : ClockMode;
  stopwatch_start : option datetime;
  stopwatch_elapsed : timedelta;
  stopwatch_running : bool;
  timer_duration : timedelta;
  timer_start : option datetime;
  timer_running : bool;
  blink_state : bool;
  setting_blink : bool
}.

(** Attribute assignment, one function per attribute the program writes. *)
Definition set_current_time (v : datetime) (s : ClockState) : ClockState :=
  mk_state v (display_time s) (alarm_time s) (alarm_enabled s) (mode s)
    (stopwatch_start s) (stopwatch_elapsed s) (stopwatch_running s)
    (timer_duration s) (timer_start s) (timer_running s) (blink_state s)
    (setting_blink s).

Definition set_display_time (v : datetime) (s : ClockState) : ClockState :=
  mk_state (current_time s) v (alarm_time s) (alarm_enabled s) (mode s)
    (stopwatch_start s) (stopwatch_elapsed s) (stopwatch_running s)
    (timer_duration s) (timer_start s) (timer_running s) (blink_state s)
    (setting_blink s).

Definition set_alarm_time (v : datetime) (s : ClockState) : ClockState :=
  mk_state (current_time s) (display_time s) v (alarm_enabled s) (mode s)
    (stopwatch_start s) (stopwatch_elapsed s) (stopwatch_running s)
    (timer_duration s) (timer_start s) (timer_running s) (blink_state s)
    (setting_blink s).

Definition set_alarm_enabled (v : bool) (s : ClockState) : ClockState :=
  mk_state (current_time s) (display_time s) (alarm_time s) v (mode s)
    (stopwatch_start s) (stopwatch_elapsed s) (stopwatch_running s)
    (timer_duration s) (timer_start s) (timer_running s) (blink_state s)
    (setting_blink s).

Definition set_mode (v : ClockMode) (s : ClockState) : ClockState :=
  mk_state (current_time s) (display_time s) (alarm_time s) (alarm_enabled s) v
    (stopwatch_start s) (stopwatch_elapsed s) (stopwatch_running s)
    (timer_duration s) (timer_start s) (timer_running s) (blink_state s)
    (setting_blink s).

Definition set_stopwatch_start (v : option datetime) (s : ClockState)
  : ClockState :=
  mk_state (current_time s) (display_time s) (alarm_time s) (alarm_enabled s)
    (mode s) v (stopwatch_elapsed s) (stopwatch_running s)
    (timer_duration s) (timer_start s) (timer_running s) (blink_state s)
    (setting_blink s).

Definition set_stopwatch_elapsed (v : timedelta) (s : ClockState)
  : ClockState :=
  mk_state (current_time s) (display_time s) (alarm_time s) (alarm_enabled s)
    (mode s) (stopwatch_start s) v (stopwatch_running s)
    (timer_duration s) (timer_start s) (timer_running s) (blink_state s)
    (setting_blink s).

Definition set_stopwatch_running (v : bool) (s : ClockState) : ClockState :=
  mk_state (current_time s) (display_time s) (alarm_time s) (alarm_enabled s)
    (mode s) (stopwatch_start s) (stopwatch_elapsed s) v
    (timer_duration s) (timer_start s) (timer_running s) (blink_state s)
    (setting_blink s).

Definition set_timer_duration (v : timedelta) (s : ClockState) : ClockState :=
  mk_state (current_time s) (display_time s) (alarm_time s) (alarm_enabled s)
    (mode s) (stopwatch_start s) (stopwatch_elapsed s) (stopwatch_running s)
    v (timer_start s) (timer_running s) (blink_state s) (setting_blink s).

Definition set_timer_start (v : option datetime) (s : ClockState)
  : ClockState :=
  mk_state (current_time s) (display_time s) (alarm_time s) (alarm_enabled s)
    (mode s) (stopwatch_start s) (stopwatch_elapsed s) (stopwatch_running s)
    (timer_duration s) v (timer_running s) (blink_state s) (setting_blink s).

Definition set_timer_running (v : bool) (s : ClockState) : ClockState :=
  mk_state (current_time s) (display_time s) (alarm_time s) (alarm_enabled s)
    (mode s) (stopwatch_start s) (stopwatch_elapsed s) (stopwatch_running s)
    (timer_duration s) (timer_start s) v (blink_state s) (setting_blink s).

Definition set_blink_state (v : bool) (s : ClockState) : ClockState :=
  mk_state (current_time s) (display_time s) (alarm_time s) (alarm_enabled s)
    (mode s) (stopwatch_start s) (stopwatch_elapsed s) (stopwatch_running s)
    (timer_duration s) (timer_start s) (timer_running s) v (setting_blink s).

Definition set_setting_blink (v : bool) (s : ClockState) : ClockState :=
  mk_state (current_time s) (display_time s) (alarm_time s) (alarm_enabled s)
    (mode s) (stopwatch_start s) (stopwatch_elapsed s) (stopwatch_running s)
    (timer_duration s) (timer_start s) (timer_running s) (blink_state s) v.

(** The running application: the attributes of [self], the text of the four
    widgets that [compose] creates and [update_display] fills, and the number
    of times the system clock has been read so far. *)
Record App : Type := mk_app {
  self : ClockState;
  time_display : string;
  date_display : string;
  mode_display : string;
  status_info : string;
  reads : nat
}.

(** ** Statements: state passing with exceptions

    A statement maps the application to its outcome and the application it
    leaves behind; an exception keeps the mutations made before it. *)
Definition M (A : Type) : Type := App -> outcome A * App.

Definition ret {A : Type} (x : A) : M A := fun a => (Return x, a).

Definition bind {A B : Type} (m : M A) (k : A -> M B) : M B :=
  fun a =>
    match m a with
    | (Return x, a') => k x a'
    | (Raise e, a') => (Raise e, a')
    end.

Declare Scope py_scope.
Delimit Scope py_scope with py.
Notation "x <- m ;; k" := (bind m (fun x => k))
  (at level 61, m at next level, right associativity) : py_scope.
Notation "m ;; k" := (bind m (fun _ => k))
  (at level 61, right associativity) : py_scope.
Open Scope py_scope.

(** Evaluate a library call that may raise. *)
Definition eval {A : Type} (r : outcome A) : M A := fun a => (r, a).

(** Read [self.x]; run [self.x = v]. *)
Definition attr {A : Type} (f : ClockState -> A) : M A :=
  fun a => (Return (f (self a)), a).

Definition assign (f : ClockState -> ClockState) : M unit :=
  fun a =>
    (Return tt,
     mk_app (f (self a)) (time_display a) (date_display a) (mode_display a)
       (status_info a) (reads a)).

(** [try: body except exc: handler]. *)
Definition exn_eqb (x y : exn) : bool :=
  match x, y with
  | ValueError, ValueError | IndexError, IndexError
  | OverflowError, OverflowError => true
  | _, _ => false
  end.

Definition try_except {A : Type} (body : M A) (exc : exn) (handler : M A)
  : M A :=
  fun a =>
    match body a with
    | (Raise e, a') => if exn_eqb e exc then handler a' else (Raise e, a')
    | r => r
    end.

(** [widget.update(text)] on each of the four widgets. *)
Definition update_time_display (text : string) : M unit :=
  fun a =>
    (Return tt,
     mk_app (self a) text (date_display a) (mode_display a) (status_info a)
       (reads a)).

Definition update_date_display (text : string) : M unit :=
  fun a =>
    (Return tt,
     mk_app (self a) (time_display a) text (mode_display a) (status_info a)
       (reads a)).

Definition update_mode_display (text : string) : M unit :=
  fun a =>
    (Return tt,
     mk_app (self a) (time_display a) (date_display a) text (status_info a)
       (reads a)).

Definition update_status_info (text : string) : M unit :=
  fun a =>
    (Return tt,
     mk_app (self a) (time_display a) (date_display a) (mode_display a) text
       (reads a)).

(** [modes.index(m)] and [modes[i]]. *)
Fixpoint list_index (m : ClockMode) (ms : list ClockMode) : outcome Z :=
  match ms with
  | [] => Raise ValueError
  | x :: rest =>
    if ClockMode_eqb x m then Return 0
    else match list_index m rest with
         | Return i => Return (i + 1)
         | Raise e => Raise e
         end
  end.

Definition getitem (ms : list ClockMode) (i : Z) : outcome ClockMode :=
  let j := if i <? 0 then i + Z.of_nat (List.length ms) else i in
  if j <? 0 then Raise IndexError
  else match nth_error ms (Z.to_nat j) with
       | Some m => Return m
       | None => Raise IndexError
       end.

(** Truth value of an attribute that holds [None] or a datetime. *)
Definition truthy (o : option datetime) : bool :=
  match o with
  | Some _ => true
  | None => false
  end.

(** The object before the body of [__init__] has run: every attribute is a
    placeholder that [__init__] overwrites, the widgets hold the empty text
    [compose] gives them, and the clock has not been read. *)
Definition blank : App :=
  let d0 := mk_datetime 0 0 0 0 0 in
  mk_app
    (mk_state d0 d0 d0 false TIME None 0 false 0 None false false false)
    EmptyString EmptyString EmptyString EmptyString 0.

(** What drives the application once mounted: the 100 ms interval timer and
    the [Button.Pressed] messages, which carry the id of the button. *)
Inductive event : Type :=
| Tick
| Pressed (button_id : string).

(** ** Sample data

    A clock that shows 09:30:00 on day 739000 and gains a second at each
    reading until 09:30:59, a stand-in for the date formatter, and three
    applications used to exercise the properties below. *)
Definition sample_clock (n : nat) : datetime :=
  mk_datetime 739000 9 30 (Z.min 59 (Z.of_nat n)) 0.

Definition sample_strftime (d : datetime) : string :=
  ("day " ++ str (ordinal d))%string.

(** Editing the hour, at 23:59:59. *)
Definition editing_hour_23 : App :=
  let d := mk_datetime 739000 23 59 59 0 in
  mk_app
    (mk_state d d (mk_datetime 739000 7 0 0 0) false SET_HOUR None 0 false
       (timedelta_minutes 5) None false true false)
    EmptyString EmptyString EmptyString EmptyString 2.

(** A one-minute timer started at 09:30:00, about to be read at 09:30:05. *)
Definition timer_55_seconds_left : App :=
  let d := mk_datetime 739000 9 30 0 0 in
  mk_app
    (mk_state d d (mk_datetime 739000 7 0 0 0) false TIMER None 0 false
       (timedelta_minutes 1) (Some d) true true false)
    EmptyString EmptyString EmptyString EmptyString 5.

(** A one-minute timer started at 09:29:00, about to be read at 09:30:05. *)
Definition timer_overdue : App :=
  let d := mk_datetime 739000 9 30 0 0 in
  mk_app
    (mk_state d d (mk_datetime 739000 7 0 0 0) false TIMER None 0 false
       (timedelta_minutes 1) (Some (mk_datetime 739000 9 29 0 0)) true true
       false)
    EmptyString EmptyString EmptyString EmptyString 5.

(** A clock that jumps from day 2 to day 3000000 and back to day 2. *)
Definition jumping_clock (n : nat) : datetime :=
  match n with
  | 3%nat => mk_datetime 3000000 0 0 0 0
  | _ => mk_datetime 2 0 0 0 0
  end.

(** Event sequences from startup: to [TIMER] and one press of PREV; to a
    running stopwatch; to a stopwatch paused after one tick. *)
Definition to_timer_then_prev : list event :=
  [Pressed "mode-btn"; Pressed "mode-btn"; Pressed "mode-btn";
   Pressed "prev-btn"].

Definition to_running_stopwatch : list event :=
  [Pressed "mode-btn"; Pressed "mode-btn"; Pressed "start-stop-btn"].

Definition to_paused_stopwatch : list event :=
  [Pressed "mode-btn"; Pressed "mode-btn"; Pressed "start-stop-btn"; Tick;
   Pressed "start-stop-btn"].

(** The scenario of setting the alarm three hours later and confirming. *)
Definition set_alarm_to_10 : list event :=
  [Pressed "mode-btn"; Pressed "set-btn"; Pressed "next-btn";
   Pressed "next-btn"; Pressed "next-btn"; Pressed "set-btn";
   Pressed "set-btn"].

(** ** The buttons of [compose]

    [compose] yields two containers of [Static] widgets, whose text
    [update_display] fills, and two rows of three buttons.  Only the buttons
    matter to the handlers: each is kept with its label, id and class, in the
    order they are yielded. *)
Record Button : Type := mk_button {
  button_label : string;
  button_id : string;
  button_classes : string
}.

Definition compose_buttons : list Button :=
  [ mk_button "MODE" "mode-btn" "mode-button";
    mk_button "LIGHT" "light-btn" "action-button";
    mk_button "SET" "set-btn" "action-button";
    mk_button "◀" "prev-btn" "action-button";
    mk_button "START/STOP" "start-stop-btn" "action-button";
    mk_button "▶" "next-btn" "action-button" ].

(** Editing the seconds, at 23:59:59. *)
Definition editing_second_59 : App :=
  let d := mk_datetime 739000 23 59 59 0 in
  mk_app
    (mk_state d d (mk_datetime 739000 7 0 0 0) false SET_SECOND None 0 false
       (timedelta_minutes 5) None false true false)
    EmptyString EmptyString EmptyString EmptyString 2.

(** A timer whose duration is the largest timedelta in days and whose start
    lies two days after the clock: the time left is not a timedelta. *)
Definition timer_overflowing : App :=
  let d := mk_datetime 739000 9 30 0 0 in
  mk_app
    (mk_state d d (mk_datetime 739000 7 0 0 0) false TIMER None 0 false
       (MAX_DELTA_DAYS * US_PER_DAY) (Some (mk_datetime 739002 9 30 0 0))
       true true false)
    EmptyString EmptyString EmptyString EmptyString 5.

(** Editing the minutes at 23:59:59, in the blank phase of the blink. *)
Definition editing_minute_blank : App :=
  let d := mk_datetime 739000 23 59 59 0 in
  mk_app
    (mk_state d d (mk_datetime 739000 7 0 0 0) false SET_MINUTE None 0 false
       (timedelta_minutes 5) None false false false)
    EmptyString EmptyString EmptyString EmptyString 2.

Section DigitalClock.

(** The system clock: [clock n] is what the [n]-th call of
    [datetime.now()] returns. *)
Variable clock : nat -> datetime.

(** [d.strftime("%A, %B %d, %Y")], the long form of the date. *)
Variable strftime_long : datetime -> string.

Set Default Proof Using "Type".

Definition now : M datetime :=
  fun a =>
    (Return (clock (reads a)),
     mk_app (self a) (time_display a) (date_display a) (mode_display a)
       (status_info a) (S (reads a))).

Definition __init__ : M unit :=
  t <- now ;;
  assign (set_current_time t) ;;
  ct <- attr current_time ;;
  assign (set_display_time ct) ;;
  t7 <- now ;;
  alarm <- eval (replace t7 (Some 7) (Some 0) (Some 0) (Some 0)) ;;
  assign (set_alarm_time alarm) ;;
  assign (set_alarm_enabled false) ;;
  assign (set_mode TIME) ;;
  assign (set_stopwatch_start None) ;;
  assign (set_stopwatch_elapsed timedelta_zero) ;;
  assign (set_stopwatch_running false) ;;
  assign (set_timer_duration (timedelta_minutes 5)) ;;
  assign (set_timer_start None) ;;
  assign (set_timer_running false) ;;
  assign (set_blink_state true) ;;
  assign (set_setting_blink false).

Definition update_display : M unit :=
  m <- attr mode ;;
  time_str <-
    (match m with
     | STOPWATCH =>
       el <- attr stopwatch_elapsed ;;
       let total_seconds := int_total_seconds el in
       let minutes := total_seconds / 60 in
       let seconds := total_seconds mod 60 in
       let hundredths := microseconds el / 10000 in
       ret (format_02d minutes ++ ":" ++ format_02d seconds ++ "."
              ++ format_02d hundredths)%string
     | TIMER =>
       running <- attr timer_running ;;
       start <- attr timer_start ;;
       match running, start with
       | true, Some ts =>
         t <- now ;;
         let elapsed := datetime_sub t ts in
         duration <- attr timer_duration ;;
         remaining <- eval (timedelta_sub duration elapsed) ;;
         if total_seconds_gt_0 remaining then
           let total_seconds := int_total_seconds remaining in
           let minutes := total_seconds / 60 in
           let seconds := total_seconds mod 60 in
           ret (format_02d minutes ++ ":" ++ format_02d seconds)%string
         else ret "00:00"%string
       | _, _ =>
         duration <- attr timer_duration ;;
         let total_seconds := int_total_seconds duration in
         let minutes := total_seconds / 60 in
         let seconds := total_seconds mod 60 in
         ret (format_02d minutes ++ ":" ++ format_02d seconds)%string
       end
     | ALARM | SET_ALARM_HOUR | SET_ALARM_MINUTE =>
       display_time <- attr alarm_time ;;
       blink <- attr blink_state ;;
       let hour_str := format_02d (hour display_time) in
       let minute_str := format_02d (minute display_time) in
       let '(hour_str, minute_str) :=
         if ClockMode_eqb m SET_ALARM_HOUR && negb blink
         then ("  "%string, minute_str)
         else if ClockMode_eqb m SET_ALARM_MINUTE && negb blink
         then (hour_str, "  "%string)
         else (hour_str, minute_str) in
       ret (hour_str ++ ":" ++ minute_str)%string
     | _ =>
       display_time <- attr display_time ;;
       blink <- attr blink_state ;;
       let hour_str := format_02d (hour display_time) in
       let minute_str := format_02d (minute display_time) in
       let second_str := format_02d (second display_time) in
       let '(hour_str, minute_str, second_str) :=
         if ClockMode_eqb m SET_HOUR && negb blink
         then ("  "%string, minute_str, second_str)
         else if ClockMode_eqb m SET_MINUTE && negb blink
         then (hour_str, "  "%string, second_str)
         else if ClockMode_eqb m SET_SECOND && negb blink
         then (hour_str, minute_str, "  "%string)
         else (hour_str, minute_str, second_str) in
       ret (hour_str ++ ":" ++ minute_str ++ ":" ++ second_str)%string
     end) ;;
  update_time_display time_str ;;
  (if negb (mode_in m [STOPWATCH; TIMER]) then
     ct <- attr current_time ;;
     update_date_display (strftime_long ct)
   else update_date_display EmptyString) ;;
  update_mode_display ("Mode: " ++ value m)%string ;;
  alm <- attr alarm_enabled ;;
  sw <- attr stopwatch_running ;;
  tmr <- attr timer_running ;;
  let status_parts :=
    ((if alm then ["ALM"%string] else [])
       ++ (if sw then ["SW"%string] else [])
       ++ (if tmr then ["TMR"%string] else []))%list in
  update_status_info (join " | " status_parts).

Definition on_mount : M unit := update_display.

Definition update_time : M unit :=
  m <- attr mode ;;
  (if ClockMode_eqb m TIME then
     t <- now ;;
     assign (set_current_time t) ;;
     ct <- attr current_time ;;
     assign (set_display_time ct)
   else ret tt) ;;
  sw_running <- attr stopwatch_running ;;
  sw_start <- attr stopwatch_start ;;
  (match sw_running, sw_start with
   | true, Some start =>
     t <- now ;;
     assign (set_stopwatch_elapsed (datetime_sub t start))
   | _, _ => ret tt
   end) ;;
  tm_running <- attr timer_running ;;
  tm_start <- attr timer_start ;;
  (match tm_running, tm_start with
   | true, Some start =>
     t <- now ;;
     let elapsed := datetime_sub t start in
     duration <- attr timer_duration ;;
     remaining <- eval (timedelta_sub duration elapsed) ;;
     if total_seconds_le_0 remaining then assign (set_timer_running false)
     else ret tt
   | _, _ => ret tt
   end) ;;
  m' <- attr mode ;;
  (if mode_in m' [SET_HOUR; SET_MINUTE; SET_SECOND;
                  SET_ALARM_HOUR; SET_ALARM_MINUTE] then
     blink <- attr blink_state ;;
     assign (set_blink_state (negb blink))
   else ret tt) ;;
  update_display.

Definition cycle_mode : M unit :=
  let modes := [TIME; ALARM; STOPWATCH; TIMER] in
  try_except
    (m <- attr mode ;;
     current_index <- eval (list_index m modes) ;;
     next <- eval (getitem modes
                     ((current_index + 1) mod Z.of_nat (List.length modes))) ;;
     assign (set_mode next))
    ValueError
    (assign (set_mode TIME)).

Definition handle_set : M unit :=
  m <- attr mode ;;
  match m with
  | TIME =>
    assign (set_mode SET_HOUR) ;;
    ct <- attr current_time ;;
    assign (set_display_time ct)
  | SET_HOUR => assign (set_mode SET_MINUTE)
  | SET_MINUTE => assign (set_mode SET_SECOND)
  | SET_SECOND =>
    dt <- attr display_time ;;
    assign (set_current_time dt) ;;
    assign (set_mode TIME)
  | ALARM => assign (set_mode SET_ALARM_HOUR)
  | SET_ALARM_HOUR => assign (set_mode SET_ALARM_MINUTE)
  | SET_ALARM_MINUTE =>
    assign (set_alarm_enabled true) ;;
    assign (set_mode ALARM)
  | _ => ret tt
  end.

Definition handle_prev : M unit :=
  m <- attr mode ;;
  match m with
  | SET_HOUR =>
    dt <- attr display_time ;;
    dt' <- eval (replace dt (Some ((hour dt - 1) mod 24)) None None None) ;;
    assign (set_display_time dt')
  | SET_MINUTE =>
    dt <- attr display_time ;;
    dt' <- eval (replace dt None (Some ((minute dt - 1) mod 60)) None None) ;;
    assign (set_display_time dt')
  | SET_SECOND =>
    dt <- attr display_time ;;
    dt' <- eval (replace dt None None (Some ((second dt - 1) mod 60)) None) ;;
    assign (set_display_time dt')
  | SET_ALARM_HOUR =>
    al <- attr alarm_time ;;
    al' <- eval (replace al (Some ((hour al - 1) mod 24)) None None None) ;;
    assign (set_alarm_time al')
  | SET_ALARM_MINUTE =>
    al <- attr alarm_time ;;
    al' <- eval (replace al None (Some ((minute al - 1) mod 60)) None None) ;;
    assign (set_alarm_time al')
  | TIMER =>
    duration <- attr timer_duration ;;
    let current_minutes := int_total_seconds_floordiv_60 duration in
    let new_minutes := Z.max 1 (current_minutes - 1) in
    assign (set_timer_duration (timedelta_minutes new_minutes))
  | _ => ret tt
  end.

Definition handle_next : M unit :=
  m <- attr mode ;;
  match m with
  | SET_HOUR =>
    dt <- attr display_time ;;
    dt' <- eval (replace dt (Some ((hour dt + 1) mod 24)) None None None) ;;
    assign (set_display_time dt')
  | SET_MINUTE =>
    dt <- attr display_time ;;
    dt' <- eval (replace dt None (Some ((minute dt + 1) mod 60)) None None) ;;
    assign (set_display_time dt')
  | SET_SECOND =>
    dt <- attr display_time ;;
    dt' <- eval (replace dt None None (Some ((second dt + 1) mod 60)) None) ;;
    assign (set_display_time dt')
  | SET_ALARM_HOUR =>
    al <- attr alarm_time ;;
    al' <- eval (replace al (Some ((hour al + 1) mod 24)) None None None) ;;
    assign (set_alarm_time al')
  | SET_ALARM_MINUTE =>
    al <- attr alarm_time ;;
    al' <- eval (replace al None (Some ((minute al + 1) mod 60)) None None) ;;
    assign (set_alarm_time al')
  | TIMER =>
    duration <- attr timer_duration ;;
    let current_minutes := int_total_seconds_floordiv_60 duration in
    let new_minutes := Z.min 99 (current_minutes + 1) in
    assign (set_timer_duration (timedelta_minutes new_minutes))
  | _ => ret tt
  end.

Definition handle_start_stop : M unit :=
  m <- attr mode ;;
  match m with
  | STOPWATCH =>
    running <- attr stopwatch_running ;;
    if running then assign (set_stopwatch_running false)
    else
      start <- attr stopwatch_start ;;
      (match start with
       | None =>
         t <- now ;;
         assign (set_stopwatch_start (Some t)) ;;
         assign (set_stopwatch_elapsed timedelta_zero)
       | Some _ =>
         t <- now ;;
         elapsed <- attr stopwatch_elapsed ;;
         resumed <- eval (datetime_sub_timedelta t elapsed) ;;
         assign (set_stopwatch_start (Some resumed))
       end) ;;
      assign (set_stopwatch_running true)
  | TIMER =>
    running <- attr timer_running ;;
    if running then assign (set_timer_running false)
    else
      t <- now ;;
      assign (set_timer_start (Some t)) ;;
      assign (set_timer_running true)
  | ALARM =>
    enabled <- attr alarm_enabled ;;
    assign (set_alarm_enabled (negb enabled))
  | _ => ret tt
  end.

Definition handle_light : M unit :=
  m <- attr mode ;;
  sw_running <- attr stopwatch_running ;;
  if ClockMode_eqb m STOPWATCH && negb sw_running then
    assign (set_stopwatch_start None) ;;
    assign (set_stopwatch_elapsed timedelta_zero)
  else
    tm_running <- attr timer_running ;;
    if ClockMode_eqb m TIMER && negb tm_running then
      assign (set_timer_duration (timedelta_minutes 5))
    else ret tt.

Definition on_button_pressed (button_id : string) : M unit :=
  if String.eqb button_id "mode-btn" then cycle_mode
  else if String.eqb button_id "set-btn" then handle_set
  else if String.eqb button_id "prev-btn" then handle_prev
  else if String.eqb button_id "next-btn" then handle_next
  else if String.eqb button_id "start-stop-btn" then handle_start_stop
  else if String.eqb button_id "light-btn" then handle_light
  else ret tt.

(** ** Running the application *)

Definition dispatch (ev : event) : M unit :=
  match ev with
  | Tick => update_time
  | Pressed button_id => on_button_pressed button_id
  end.

(** Handle the events in order; an exception that escapes a handler ends
    the run. *)
Fixpoint run (evs : list event) : M unit :=
  match evs with
  | [] => ret tt
  | ev :: rest => dispatch ev ;; run rest
  end.

(** Construction and mounting, before the first event. *)
Definition startup : M unit := __init__ ;; on_mount.

(** The applications that some sequence of events leads to. *)
Definition reachable (a : App) : Prop :=
  exists evs, (startup ;; run evs) blank = (Return tt, a).

(** ** Vocabulary of the properties *)

(** The application after startup and the given events. *)
Definition app_after (evs : list event) : App :=
  snd ((startup ;; run evs) blank).

(** A clock that only yields datetimes and never runs backwards. *)
Definition clock_ok : Prop :=
  (forall n, wf_datetime (clock n)) /\
  (forall n, to_us (clock n) <= to_us (clock (S n))).

(** The five setting sub-modes. *)
Definition is_setting (m : ClockMode) : bool :=
  mode_in m [SET_HOUR; SET_MINUTE; SET_SECOND;
             SET_ALARM_HOUR; SET_ALARM_MINUTE].

(** A statement that leaves every attribute of [self] as it found it,
    whatever its outcome, and can only add to the count of clock
    readings. *)
Definition keeps_self {A : Type} (m : M A) : Prop :=
  forall a,
    self (snd (m a)) = self a /\ (reads a <= reads (snd (m a)))%nat.


(** The field a setting sub-mode edits, on the timestamp it edits. *)
Definition edited_field (s : ClockState) : option Z :=
  match mode s with
  | SET_HOUR => Some (hour (display_time s))
  | SET_MINUTE => Some (minute (display_time s))
  | SET_SECOND => Some (second (display_time s))
  | SET_ALARM_HOUR => Some (hour (alarm_time s))
  | SET_ALARM_MINUTE => Some (minute (alarm_time s))
  | _ => None
  end.

(** The number of values of that field: 24 hours, 60 minutes or seconds. *)
Definition field_modulus (m : ClockMode) : Z :=
  match m with
  | SET_HOUR | SET_ALARM_HOUR => 24
  | _ => 60
  end.

(** A whole number of minutes between 1 and 99. *)
Definition whole_minutes_1_99 (td : timedelta) : Prop :=
  exists k, 1 <= k <= 99 /\ td = timedelta_minutes k.

(** A running flag is only up when the matching start is set. *)
Definition started_when_running (s : ClockState) : Prop :=
  (stopwatch_running s = true -> stopwatch_start s <> None) /\
  (timer_running s = true -> timer_start s <> None).

(** The successor of a mode under MODE, as [cycle_mode] computes it. *)
Definition next_mode (m : ClockMode) : ClockMode :=
  match m with
  | TIME => ALARM
  | ALARM => STOPWATCH
  | STOPWATCH => TIMER
  | _ => TIME
  end.

(** What every operation keeps, whatever the clock does: the timer duration
    is a whole number of minutes in range, the running flags imply their
    starts, and a stopwatch that has no start has no elapsed time. *)
Definition inv (s : ClockState) : Prop :=
  whole_minutes_1_99 (timer_duration s) /\
  started_when_running s /\
  (stopwatch_start s = None -> stopwatch_elapsed s = timedelta_zero).


(** A decimal digit and the two-digit numeral of a number below 100. *)
Definition digit (n : Z) : ascii := ascii_of_nat (48 + Z.to_nat n).
Definition two_digits (n : Z) : string :=
  String (digit (n / 10)) (String (digit (n mod 10)) EmptyString).

(** The clock value that the timer branch of [update_time] reads: the
    branches for [TIME] and for a running stopwatch read the clock first. *)
Definition timer_reading (a : App) : datetime :=
  clock ((if stopwatch_running (self a) && truthy (stopwatch_start (self a))
          then 1 else 0)
         + ((if ClockMode_eqb (mode (self a)) TIME then 1 else 0)
            + reads a))%nat.

(** What holds of the starts under a clock that never runs backwards: they
    are datetimes, and the stopwatch never claims more elapsed time than
    the clock has shown since its start. *)
Definition timeline_ok (a : App) : Prop :=
  (forall d, timer_start (self a) = Some d -> wf_datetime d) /\
  (forall d, stopwatch_start (self a) = Some d ->
             wf_datetime d /\
             0 <= stopwatch_elapsed (self a) /\
             to_us d + stopwatch_elapsed (self a) <= to_us (clock (reads a))).

Definition sound (a : App) : Prop := inv (self a) /\ timeline_ok a.

(** The four modes that MODE cycles through. *)
Definition top_level (m : ClockMode) : bool :=
  mode_in m [TIME; ALARM; STOPWATCH; TIMER].

(** A two-digit field of the display: blank while it is being edited and
    the blink phase is off. *)
Definition shown (editing blink : bool) (v : Z) : string :=
  if editing && negb blink then "  "%string else two_digits v.

(** [n] ticks in a row. *)
Definition ticks (n : nat) : list event := repeat Tick n.

(** Every datetime the application holds is one the constructor accepts. *)
Definition datetimes_valid (s : ClockState) : Prop :=
  wf_datetime (current_time s) /\
  wf_datetime (display_time s) /\
  wf_datetime (alarm_time s) /\
  (forall d, stopwatch_start s = Some d -> wf_datetime d) /\
  (forall d, timer_start s = Some d -> wf_datetime d).

(** Valid datetimes throughout, and an alarm on the whole minute. *)
Definition times_ok (s : ClockState) : Prop :=
  datetimes_valid s /\
  second (alarm_time s) = 0 /\
  microsecond (alarm_time s) = 0.

(** ** Frame lemmas: statements that never assign to [self] *)

Lemma keeps_self_ret {A : Type} (x : A) : keeps_self (ret x).
Proof. intros a. split; [ reflexivity | apply Nat.le_refl ]. Qed.

Lemma keeps_self_attr {A : Type} (f : ClockState -> A) : keeps_self (attr f).
Proof. intros a. split; [ reflexivity | apply Nat.le_refl ]. Qed.

Lemma keeps_self_eval {A : Type} (r : outcome A) : keeps_self (eval r).
Proof. intros a. split; [ reflexivity | apply Nat.le_refl ]. Qed.

Lemma keeps_self_now : keeps_self now.
Proof. intros a. split; [ reflexivity | apply Nat.le_succ_diag_r ]. Qed.

Lemma keeps_self_update_time_display text :
  keeps_self (update_time_display text).
Proof. intros a. split; [ reflexivity | apply Nat.le_refl ]. Qed.

Lemma keeps_self_update_date_display text :
  keeps_self (update_date_display text).
Proof. intros a. split; [ reflexivity | apply Nat.le_refl ]. Qed.

Lemma keeps_self_update_mode_display text :
  keeps_self (update_mode_display text).
Proof. intros a. split; [ reflexivity | apply Nat.le_refl ]. Qed.

Lemma keeps_self_update_status_info text :
  keeps_self (update_status_info text).
Proof. intros a. split; [ reflexivity | apply Nat.le_refl ]. Qed.

Lemma keeps_self_bind {A B : Type} (m : M A) (k : A -> M B) :
  keeps_self m -> (forall x, keeps_self (k x)) -> keeps_self (bind m k).
Proof.
  intros Hm Hk a. unfold bind.
  specialize (Hm a). destruct (m a) as [[x | e] a1]; cbn [snd] in *.
  - destruct Hm as [Hs Hr]. destruct (Hk x a1) as [Hs' Hr']. split.
    + rewrite Hs'. exact Hs.
    + exact (Nat.le_trans _ _ _ Hr Hr').
  - exact Hm.
Qed.

Create HintDb frame.
#[local] Hint Resolve keeps_self_ret keeps_self_attr keeps_self_eval keeps_self_now
  keeps_self_update_time_display keeps_self_update_date_display
  keeps_self_update_mode_display keeps_self_update_status_info : frame.

Ltac frame :=
  repeat first
    [ progress auto with frame
    | apply keeps_self_bind; [ | intro ]
    | match goal with
      | |- keeps_self (match ?x with _ => _ end) => destruct x
      | |- keeps_self (if ?b then _ else _) => destruct b
      | |- keeps_self (let '(_, _) := ?p in _) => destruct p
      end ].


(** ** MODE and SET *)

Lemma is_setting_cases m :
  is_setting m = true ->
  m = SET_HOUR \/ m = SET_MINUTE \/ m = SET_SECOND \/
  m = SET_ALARM_HOUR \/ m = SET_ALARM_MINUTE.
Proof. destruct m; simpl; intros H; try discriminate; tauto. Qed.

(** C1, as the code has it: in a setting sub-mode the lookup in the
    top-level list raises [ValueError], and the handler of that exception
    puts the watch back in [TIME]; nothing else is assigned and no
    exception escapes. *)
Theorem cycle_mode_from_setting_resets_to_TIME :
  forall a,
    is_setting (mode (self a)) = true ->
    fst (cycle_mode a) = Return tt /\
    self (snd (cycle_mode a)) = set_mode TIME (self a) /\
    mode (self (snd (cycle_mode a))) = TIME /\
    time_display (snd (cycle_mode a)) = time_display a /\
    date_display (snd (cycle_mode a)) = date_display a /\
    mode_display (snd (cycle_mode a)) = mode_display a /\
    status_info (snd (cycle_mode a)) = status_info a /\
    reads (snd (cycle_mode a)) = reads a.
Proof.
  intros [s td dd md si r] H. simpl in H.
  unfold cycle_mode, try_except, bind, attr, eval. cbn [self].
  destruct (is_setting_cases _ H) as [E | [E | [E | [E | E]]]];
    rewrite E; cbn; repeat split; reflexivity.
Qed.

(** C2: from [TIME], four presses of SET with nothing in between come back
    to [TIME] with [current_time] as it was; no press raises. *)
Theorem handle_set_four_times_round_trip :
  forall a,
    mode (self a) = TIME ->
    let r := (handle_set ;; handle_set ;; handle_set ;; handle_set) a in
    fst r = Return tt /\
    mode (self (snd r)) = TIME /\
    current_time (self (snd r)) = current_time (self a).
Proof.
  intros [s td dd md si r] H. cbn [self] in H.
  unfold handle_set, bind, attr, assign. cbn. rewrite H. cbn.
  repeat split; reflexivity.
Qed.

(** ** PREV and NEXT in the setting sub-modes *)

Lemma replace_hour d x :
  0 <= x < 24 ->
  replace d (Some x) None None None =
  Return (mk_datetime (ordinal d) x (minute d) (second d) (microsecond d)).
Proof.
  intros H. unfold replace, check_field.
  destruct (Z.leb_spec 0 x); [ | lia ].
  destruct (Z.leb_spec x 23); [ reflexivity | lia ].
Qed.

Lemma replace_minute d x :
  0 <= x < 60 ->
  replace d None (Some x) None None =
  Return (mk_datetime (ordinal d) (hour d) x (second d) (microsecond d)).
Proof.
  intros H. unfold replace, check_field.
  destruct (Z.leb_spec 0 x); [ | lia ].
  destruct (Z.leb_spec x 59); [ reflexivity | lia ].
Qed.

Lemma replace_second d x :
  0 <= x < 60 ->
  replace d None None (Some x) None =
  Return (mk_datetime (ordinal d) (hour d) (minute d) x (microsecond d)).
Proof.
  intros H. unfold replace, check_field.
  destruct (Z.leb_spec 0 x); [ | lia ].
  destruct (Z.leb_spec x 59); [ reflexivity | lia ].
Qed.

Lemma succ_pred_mod v n :
  0 < n -> 0 <= v < n -> ((v - 1) mod n + 1) mod n = v.
Proof.
  intros Hn Hv. destruct (Z.eq_dec v 0) as [-> | Hnz].
  - replace (0 - 1) with (-1 + 1 * n - 1 * n + 0) by lia.
    replace (-1 + 1 * n - 1 * n + 0) with ((n - 1) + (-1) * n) by lia.
    rewrite Z.mod_add by lia. rewrite (Z.mod_small (n - 1)) by lia.
    replace (n - 1 + 1) with n by lia. apply Z.mod_same. lia.
  - rewrite (Z.mod_small (v - 1)) by lia.
    replace (v - 1 + 1) with v by lia. apply Z.mod_small. lia.
Qed.

Lemma pred_succ_mod v n :
  0 < n -> 0 <= v < n -> ((v + 1) mod n - 1) mod n = v.
Proof.
  intros Hn Hv. destruct (Z.eq_dec v (n - 1)) as [-> | Hnz].
  - replace (n - 1 + 1) with n by lia. rewrite Z.mod_same by lia.
    replace (0 - 1) with ((n - 1) + (-1) * n) by lia.
    rewrite Z.mod_add by lia. apply Z.mod_small. lia.
  - rewrite (Z.mod_small (v + 1)) by lia.
    replace (v + 1 - 1) with v by lia. apply Z.mod_small. lia.
Qed.

Ltac mod_bound :=
  match goal with
  | |- 0 <= ?x mod ?n < ?n => apply Z.mod_pos_bound; lia
  end.

(** C3: in each setting sub-mode PREV and NEXT move the edited field by one
    modulo its range, neither raises, and pressing one after the other, in
    either order, restores the field, and with it the whole state. *)
Theorem handle_prev_handle_next_inverse :
  forall a v,
    is_setting (mode (self a)) = true ->
    edited_field (self a) = Some v ->
    0 <= v < field_modulus (mode (self a)) ->
    let n := field_modulus (mode (self a)) in
    (fst (handle_prev a) = Return tt /\
     edited_field (self (snd (handle_prev a))) = Some ((v - 1) mod n)) /\
    (fst (handle_next a) = Return tt /\
     edited_field (self (snd (handle_next a))) = Some ((v + 1) mod n)) /\
    (handle_prev ;; handle_next) a = (Return tt, a) /\
    (handle_next ;; handle_prev) a = (Return tt, a) /\
    edited_field (self (snd ((handle_prev ;; handle_next) a))) = Some v /\
    edited_field (self (snd ((handle_next ;; handle_prev) a))) = Some v.
Proof.
  clear clock strftime_long.
  intros [s td dd md si r] v Hset Hv Hr n.
  assert (Hpn : (handle_prev ;; handle_next) (mk_app s td dd md si r)
                = (Return tt, mk_app s td dd md si r) /\
                (handle_next ;; handle_prev) (mk_app s td dd md si r)
                = (Return tt, mk_app s td dd md si r) /\
                (fst (handle_prev (mk_app s td dd md si r)) = Return tt /\
                 edited_field (self (snd (handle_prev (mk_app s td dd md si r))))
                 = Some ((v - 1) mod n)) /\
                (fst (handle_next (mk_app s td dd md si r)) = Return tt /\
                 edited_field (self (snd (handle_next (mk_app s td dd md si r))))
                 = Some ((v + 1) mod n))).
  { subst n. cbn [self] in *. unfold edited_field in *.
    destruct s as [ct dt al ae m ss se sr tdur ts tr bs sb].
    cbn [mode display_time alarm_time] in *.
    destruct (is_setting_cases _ Hset) as [E | [E | [E | [E | E]]]];
      subst m; cbn [field_modulus] in *; injection Hv as Hv;
      [ destruct dt as [o h mi sec us] | destruct dt as [o h mi sec us]
      | destruct dt as [o h mi sec us] | destruct al as [o h mi sec us]
      | destruct al as [o h mi sec us] ];
      cbn [hour minute second] in Hv; subst v;
      unfold handle_prev, handle_next, bind, attr, assign, eval;
      cbn [self mode display_time alarm_time hour minute second fst snd];
      repeat (first [ rewrite replace_hour by mod_bound
                    | rewrite replace_minute by mod_bound
                    | rewrite replace_second by mod_bound ];
              cbn [self mode display_time alarm_time hour minute second
                   ordinal microsecond fst snd set_display_time
                   set_alarm_time current_time alarm_enabled stopwatch_start
                   stopwatch_elapsed stopwatch_running timer_duration
                   timer_start timer_running blink_state setting_blink]);
      rewrite ?succ_pred_mod, ?pred_succ_mod by lia;
      repeat split; reflexivity. }
  destruct Hpn as (Hpn & Hnp & Hp & Hn).
  repeat split; try tauto; try (rewrite ?Hpn, ?Hnp; cbn [snd self]; exact Hv).
Qed.

(** ** Symbolic execution of statements *)

Ltac mexec :=
  cbv beta iota zeta delta
    [try_except bind attr assign eval ret now
     update_time_display update_date_display update_mode_display
     update_status_info
     set_current_time set_display_time set_alarm_time set_alarm_enabled
     set_mode set_stopwatch_start set_stopwatch_elapsed
     set_stopwatch_running set_timer_duration set_timer_start
     set_timer_running set_blink_state set_setting_blink
     ClockMode_eqb mode_in existsb orb andb negb truthy exn_eqb];
  cbn [self time_display date_display mode_display status_info reads
       current_time display_time alarm_time alarm_enabled mode
       stopwatch_start stopwatch_elapsed stopwatch_running timer_duration
       timer_start timer_running blink_state setting_blink fst snd].

Ltac case_step :=
  match goal with
  | |- context [match ?x with _ => _ end] =>
    lazymatch x with
    | context [match _ with _ => _ end] => fail
    | _ => destruct x eqn:?
    end
  end.

Ltac cases := repeat (case_step; mexec).

Lemma update_display_frame : keeps_self update_display.
Proof. unfold update_display. frame. Qed.

Lemma update_display_self a : self (snd (update_display a)) = self a.
Proof. apply update_display_frame. Qed.

Lemma update_display_reads a :
  (reads a <= reads (snd (update_display a)))%nat.
Proof. apply update_display_frame. Qed.

Lemma cycle_mode_next a :
  cycle_mode a = assign (set_mode (next_mode (mode (self a)))) a.
Proof.
  destruct a as [[ct dt al ae m ss se sr tdur ts tr bs sb] td dd md si r].
  destruct m; reflexivity.
Qed.

Lemma replace_7_0_0_0 d :
  replace d (Some 7) (Some 0) (Some 0) (Some 0)
  = Return (mk_datetime (ordinal d) 7 0 0 0).
Proof. reflexivity. Qed.

Lemma init_blank :
  __init__ blank =
  (Return tt,
   mk_app
     (mk_state (clock 0) (clock 0) (mk_datetime (ordinal (clock 1)) 7 0 0 0)
        false TIME None timedelta_zero false (timedelta_minutes 5) None
        false true false)
     EmptyString EmptyString EmptyString EmptyString 2).
Proof. reflexivity. Qed.

Lemma startup_self :
  self (snd (startup blank)) =
  mk_state (clock 0) (clock 0) (mk_datetime (ordinal (clock 1)) 7 0 0 0)
    false TIME None timedelta_zero false (timedelta_minutes 5) None false
    true false.
Proof.
  unfold startup, on_mount, bind. rewrite init_blank.
  rewrite update_display_self. reflexivity.
Qed.

(** Induction over the events that lead to a reachable application. *)
Lemma run_invariant (P : App -> Prop) :
  (forall ev a a', P a -> dispatch ev a = (Return tt, a') -> P a') ->
  forall evs a a', P a -> run evs a = (Return tt, a') -> P a'.
Proof.
  intros Hstep. induction evs as [ | ev rest IH ]; intros a a' Ha Hrun.
  - cbn in Hrun. unfold ret in Hrun. congruence.
  - cbn [run] in Hrun. unfold bind in Hrun.
    destruct (dispatch ev a) as [[[] | e] a1] eqn:Hev; [ | discriminate ].
    apply (IH a1 a'); [ | exact Hrun ]. apply (Hstep ev a a1); assumption.
Qed.

Lemma run_after_invariant (P : App -> Prop) (init : M unit) (a0 : App) :
  (forall a, init a0 = (Return tt, a) -> P a) ->
  (forall ev a a', P a -> dispatch ev a = (Return tt, a') -> P a') ->
  forall evs a, (init ;; run evs) a0 = (Return tt, a) -> P a.
Proof.
  intros Hinit Hstep evs a. unfold bind.
  destruct (init a0) as [[[] | e] a1]; [ | discriminate ].
  intros Hrun. apply (run_invariant P Hstep evs a1 a); [ | exact Hrun ].
  apply Hinit. reflexivity.
Qed.

Lemma reachable_invariant (P : App -> Prop) :
  (forall a, startup blank = (Return tt, a) -> P a) ->
  (forall ev a a', P a -> dispatch ev a = (Return tt, a') -> P a') ->
  forall a, reachable a -> P a.
Proof.
  intros Hinit Hstep a [evs Hrun].
  exact (run_after_invariant P startup blank Hinit Hstep evs a Hrun).
Qed.

(** ** The clock-independent invariant *)


Lemma minutes_of_timedelta_minutes k :
  int_total_seconds_floordiv_60 (timedelta_minutes k) = k.
Proof.
  unfold int_total_seconds_floordiv_60, timedelta_minutes.
  apply Z.div_mul. unfold US_PER_MINUTE. lia.
Qed.

Ltac inv_done :=
  repeat match goal with
         | H : _ |- _ =>
           progress (unfold inv, started_when_running, whole_minutes_1_99
                      in H)
         | H : _ |- _ =>
           progress (cbn [timer_duration stopwatch_running stopwatch_start
                          timer_running timer_start stopwatch_elapsed] in H)
         end;
  unfold inv, started_when_running, whole_minutes_1_99;
  cbn [timer_duration stopwatch_running stopwatch_start timer_running
       timer_start stopwatch_elapsed];
  intuition (try discriminate; try congruence; eauto).

Lemma update_time_inv a : inv (self a) -> inv (self (snd (update_time a))).
Proof.
  destruct a as [[ct dt al ae m ss se sr tdur ts tr bs sb] td dd md si r].
  unfold update_time. mexec. intros H.
  cases; try rewrite update_display_self; mexec; inv_done.
Qed.

Lemma handle_set_inv a : inv (self a) -> inv (self (snd (handle_set a))).
Proof.
  clear clock strftime_long.
  destruct a as [[ct dt al ae m ss se sr tdur ts tr bs sb] td dd md si r].
  unfold handle_set. mexec. intros H. cases; inv_done.
Qed.

Lemma handle_prev_inv a : inv (self a) -> inv (self (snd (handle_prev a))).
Proof.
  clear clock strftime_long.
  destruct a as [[ct dt al ae m ss se sr tdur ts tr bs sb] td dd md si r].
  unfold handle_prev. mexec. intros H. cases; try solve [inv_done].
  destruct H as [(k & Hk & Hd) Hs]. cbn [timer_duration] in Hd. subst tdur.
  rewrite minutes_of_timedelta_minutes.
  split; [ | exact Hs ]. exists (Z.max 1 (k - 1)). split; [ lia | reflexivity ].
Qed.

Lemma handle_next_inv a : inv (self a) -> inv (self (snd (handle_next a))).
Proof.
  clear clock strftime_long.
  destruct a as [[ct dt al ae m ss se sr tdur ts tr bs sb] td dd md si r].
  unfold handle_next. mexec. intros H. cases; try solve [inv_done].
  destruct H as [(k & Hk & Hd) Hs]. cbn [timer_duration] in Hd. subst tdur.
  rewrite minutes_of_timedelta_minutes.
  split; [ | exact Hs ]. exists (Z.min 99 (k + 1)). split; [ lia | reflexivity ].
Qed.

Lemma handle_start_stop_inv a :
  inv (self a) -> inv (self (snd (handle_start_stop a))).
Proof.
  clear strftime_long.
  destruct a as [[ct dt al ae m ss se sr tdur ts tr bs sb] td dd md si r].
  unfold handle_start_stop. mexec. intros H. cases; inv_done.
Qed.

Lemma handle_light_inv a : inv (self a) -> inv (self (snd (handle_light a))).
Proof.
  clear clock strftime_long.
  destruct a as [[ct dt al ae m ss se sr tdur ts tr bs sb] td dd md si r].
  unfold handle_light. mexec. intros H. cases; try solve [inv_done].
  split; [ exists 5; split; [ lia | reflexivity ] | inv_done ].
Qed.

Lemma cycle_mode_inv a : inv (self a) -> inv (self (snd (cycle_mode a))).
Proof.
  clear clock strftime_long.
  rewrite cycle_mode_next.
  destruct a as [[ct dt al ae m ss se sr tdur ts tr bs sb] td dd md si r].
  mexec. intros H. inv_done.
Qed.

Lemma dispatch_inv ev a : inv (self a) -> inv (self (snd (dispatch ev a))).
Proof.
  destruct ev as [ | button_id ]; cbn [dispatch].
  - apply update_time_inv.
  - unfold on_button_pressed.
    repeat match goal with
           | |- context [if ?b then _ else _] => destruct b
           end;
      auto using cycle_mode_inv, handle_set_inv, handle_prev_inv,
        handle_next_inv, handle_start_stop_inv, handle_light_inv.
Qed.

Lemma reachable_inv a : reachable a -> inv (self a).
Proof.
  apply (reachable_invariant (fun a => inv (self a))).
  - intros a0 H. replace a0 with (snd (startup blank)) by (rewrite H; reflexivity).
    rewrite startup_self. split.
    + exists 5. split; [ lia | reflexivity ].
    + split; [ split; cbn; intros; discriminate | reflexivity ].
  - intros ev a0 a' H Hd.
    replace a' with (snd (dispatch ev a0)) by (rewrite Hd; reflexivity).
    apply dispatch_inv. exact H.
Qed.

(** ** Timer duration and running flags over reachable applications *)

Lemma app_after_nil_self : self (app_after []) = self (snd (startup blank)).
Proof.
  unfold app_after. cbn [run]. unfold bind, ret.
  generalize (startup blank). intros [[[] | e] a]; reflexivity.
Qed.

Lemma handle_prev_TIMER a :
  mode (self a) = TIMER ->
  timer_duration (self (snd (handle_prev a))) =
  timedelta_minutes
    (Z.max 1 (int_total_seconds_floordiv_60 (timer_duration (self a)) - 1)).
Proof.
  destruct a as [[ct dt al ae m ss se sr tdur ts tr bs sb] td dd md si r].
  cbn [self mode]. intros ->. reflexivity.
Qed.

Lemma handle_next_TIMER a :
  mode (self a) = TIMER ->
  timer_duration (self (snd (handle_next a))) =
  timedelta_minutes
    (Z.min 99 (int_total_seconds_floordiv_60 (timer_duration (self a)) + 1)).
Proof.
  destruct a as [[ct dt al ae m ss se sr tdur ts tr bs sb] td dd md si r].
  cbn [self mode]. intros ->. reflexivity.
Qed.

Lemma handle_light_TIMER a :
  mode (self a) = TIMER -> timer_running (self a) = false ->
  timer_duration (self (snd (handle_light a))) = timedelta_minutes 5.
Proof.
  destruct a as [[ct dt al ae m ss se sr tdur ts tr bs sb] td dd md si r].
  cbn [self mode timer_running]. intros -> ->. reflexivity.
Qed.

(** C4: [timer_duration] starts at 5 minutes and, in every reachable
    application, is a whole number [k] of minutes with [1 <= k <= 99]; in
    [TIMER] mode PREV leaves [max 1 (k - 1)] minutes, NEXT leaves
    [min 99 (k + 1)] minutes, and LIGHT with the timer stopped puts back
    the 5 minutes. *)
Theorem timer_duration_whole_minutes_in_range :
  forall a,
    reachable a ->
    timer_duration (self (app_after [])) = timedelta_minutes 5 /\
    exists k,
      1 <= k <= 99 /\
      timer_duration (self a) = timedelta_minutes k /\
      (mode (self a) = TIMER ->
       timer_duration (self (snd (handle_prev a)))
       = timedelta_minutes (Z.max 1 (k - 1)) /\
       timer_duration (self (snd (handle_next a)))
       = timedelta_minutes (Z.min 99 (k + 1))) /\
      (mode (self a) = TIMER -> timer_running (self a) = false ->
       timer_duration (self (snd (handle_light a))) = timedelta_minutes 5).
Proof.
  intros a Hreach. split.
  - rewrite app_after_nil_self, startup_self. reflexivity.
  - destruct (reachable_inv a Hreach) as [(k & Hk & Hd) _].
    exists k. split; [ exact Hk | ]. split; [ exact Hd | ]. split.
    + intros Hm. rewrite handle_prev_TIMER, handle_next_TIMER by exact Hm.
      rewrite Hd, minutes_of_timedelta_minutes. split; reflexivity.
    + apply handle_light_TIMER.
Qed.

(** C10: in every reachable application a running stopwatch has its start
    set and a running timer has its start set, so the tests
    [stopwatch_running and stopwatch_start] and
    [timer_running and timer_start] of [update_time] come out as the
    running flags alone. *)
Theorem running_flags_imply_starts :
  forall a,
    reachable a ->
    (stopwatch_running (self a) = true ->
     exists d, stopwatch_start (self a) = Some d) /\
    (timer_running (self a) = true ->
     exists d, timer_start (self a) = Some d) /\
    stopwatch_running (self a) && truthy (stopwatch_start (self a))
    = stopwatch_running (self a) /\
    timer_running (self a) && truthy (timer_start (self a))
    = timer_running (self a).
Proof.
  intros a Hreach.
  destruct (reachable_inv a Hreach) as (_ & (Hs & Ht) & _).
  destruct (stopwatch_running (self a)), (stopwatch_start (self a)),
    (timer_running (self a)), (timer_start (self a));
    cbn; repeat split; intros; eauto; try discriminate;
    try (exfalso; apply Hs; reflexivity);
    try (exfalso; apply Ht; reflexivity).
Qed.

(** ** The timer: expiry in [update_time], display in [update_display] *)

(** C6: when the timer runs and [remaining] is the duration left at the
    clock value the timer branch reads, a tick with [remaining <= 0] clears
    [timer_running] and keeps [timer_start] and [timer_duration]; with
    [remaining > 0] it changes none of the three. *)
Theorem update_time_timer_expiry :
  forall a start remaining,
    timer_running (self a) = true ->
    timer_start (self a) = Some start ->
    timedelta_sub (timer_duration (self a))
      (datetime_sub (timer_reading a) start) = Return remaining ->
    let a' := snd (update_time a) in
    (remaining <= 0 ->
     timer_running (self a') = false /\
     timer_start (self a') = Some start /\
     timer_duration (self a') = timer_duration (self a)) /\
    (0 < remaining ->
     timer_running (self a') = true /\
     timer_start (self a') = Some start /\
     timer_duration (self a') = timer_duration (self a)).
Proof.
  intros [[ct dt al ae m ss se sr tdur ts tr bs sb] td dd md si r]
    start remaining.
  unfold timer_reading.
  cbn [self timer_running timer_start timer_duration mode stopwatch_running
       stopwatch_start reads].
  intros Hr Hs Hrem. subst tr ts. cbv zeta. unfold update_time.
  mexec. cases;
    cbn [andb truthy ClockMode_eqb Nat.add] in Hrem;
    try rewrite Hrem in *;
    repeat match goal with
           | H : Return _ = Return _ |- _ => injection H as H; subst
           | H : Return _ = Raise _ |- _ => discriminate H
           | H : total_seconds_le_0 _ = true |- _ =>
             apply Z.leb_le in H
           | H : total_seconds_le_0 _ = false |- _ =>
             apply Z.leb_gt in H
           end;
    rewrite update_display_self;
    cbn [timer_running timer_start timer_duration];
    split; intros; repeat split; first [ reflexivity | lia ].
Qed.

Lemma format_02d_two_digits n :
  0 <= n < 100 -> format_02d n = two_digits n.
Proof.
  intros Hn.
  assert (Hall : forallb
                   (fun k => String.eqb (format_02d (Z.of_nat k))
                               (two_digits (Z.of_nat k)))
                   (seq 0 100) = true) by (vm_compute; reflexivity).
  rewrite forallb_forall in Hall.
  specialize (Hall (Z.to_nat n)).
  rewrite Z2Nat.id in Hall by lia.
  apply String.eqb_eq. apply Hall. apply in_seq. lia.
Qed.


Lemma int_total_seconds_floor td :
  0 <= td -> int_total_seconds td = td / US_PER_SECOND.
Proof.
  intros H. unfold int_total_seconds. apply Z.quot_div_nonneg.
  - exact H.
  - unfold US_PER_SECOND. lia.
Qed.


(** C7: rendering assigns to no attribute of [self]: whatever the state
    and whatever the outcome of the render, all thirteen attributes, among
    them [blink_state], the three timestamps, the stopwatch and timer
    fields, the mode and the flags, are what they were. *)
Theorem update_display_mutates_no_attribute :
  forall a,
    self (snd (update_display a)) = self a /\
    blink_state (self (snd (update_display a))) = blink_state (self a) /\
    current_time (self (snd (update_display a))) = current_time (self a) /\
    display_time (self (snd (update_display a))) = display_time (self a) /\
    alarm_time (self (snd (update_display a))) = alarm_time (self a) /\
    stopwatch_start (self (snd (update_display a)))
    = stopwatch_start (self a) /\
    stopwatch_elapsed (self (snd (update_display a)))
    = stopwatch_elapsed (self a) /\
    timer_start (self (snd (update_display a))) = timer_start (self a) /\
    mode (self (snd (update_display a))) = mode (self a).
Proof.
  intros a. rewrite update_display_self. repeat split; reflexivity.
Qed.

(** ** Arithmetic of datetimes *)

Lemma wf_datetime_to_us d :
  wf_datetime d ->
  US_PER_DAY <= to_us d < (MAXORDINAL + 1) * US_PER_DAY.
Proof.
  clear clock strftime_long.
  unfold wf_datetime, to_us, US_PER_DAY, MAXORDINAL, US_PER_SECOND.
  intros (Ho & Hh & Hm & Hs & Hu). lia.
Qed.

Lemma timedelta_sub_in_range a b :
  - MAX_DELTA_DAYS * US_PER_DAY <= a - b < (MAX_DELTA_DAYS + 1) * US_PER_DAY ->
  timedelta_sub a b = Return (a - b).
Proof.
  clear clock strftime_long.
  intros H. unfold timedelta_sub, days. cbv zeta.
  assert (Hlo : - MAX_DELTA_DAYS <= (a - b) / US_PER_DAY)
    by (apply Z.div_le_lower_bound; unfold US_PER_DAY in *; lia).
  assert (Hhi : (a - b) / US_PER_DAY < MAX_DELTA_DAYS + 1)
    by (apply Z.div_lt_upper_bound; unfold US_PER_DAY in *; lia).
  destruct (Z.leb_spec (- MAX_DELTA_DAYS) ((a - b) / US_PER_DAY)); [ | lia ].
  destruct (Z.leb_spec ((a - b) / US_PER_DAY) MAX_DELTA_DAYS); [ | lia ].
  reflexivity.
Qed.

Lemma timer_remaining_returns duration t start :
  whole_minutes_1_99 duration -> wf_datetime t -> wf_datetime start ->
  timedelta_sub duration (datetime_sub t start)
  = Return (duration - datetime_sub t start).
Proof.
  clear clock strftime_long.
  intros (k & Hk & ->) Ht Hs. apply timedelta_sub_in_range.
  apply wf_datetime_to_us in Ht, Hs.
  unfold datetime_sub, timedelta_minutes, US_PER_MINUTE, MAX_DELTA_DAYS,
    US_PER_DAY, MAXORDINAL in *. lia.
Qed.

Lemma datetime_sub_timedelta_in_range d td :
  US_PER_DAY <= to_us d - td < (MAXORDINAL + 1) * US_PER_DAY ->
  exists r,
    datetime_sub_timedelta d td = Return r /\
    wf_datetime r /\
    to_us r = to_us d - td.
Proof.
  clear clock strftime_long.
  intros H. unfold datetime_sub_timedelta. cbv zeta.
  set (x := to_us d - td) in *.
  assert (Hlo : 1 <= days x)
    by (apply Z.div_le_lower_bound; unfold US_PER_DAY in *; lia).
  assert (Hhi : days x < MAXORDINAL + 1)
    by (apply Z.div_lt_upper_bound; unfold US_PER_DAY in *; lia).
  destruct (Z.ltb_spec 0 (days x)); [ | lia ].
  destruct (Z.leb_spec (days x) MAXORDINAL); [ | lia ].
  cbn [andb]. eexists. split; [ reflexivity | ].
  unfold wf_datetime, to_us, days, seconds, microseconds in *.
  cbn [ordinal hour minute second microsecond].
  unfold US_PER_DAY, US_PER_SECOND, MAXORDINAL in *.
  Z.div_mod_to_equations. lia.
Qed.

Section MonotoneClock.

Hypothesis Hclock : clock_ok.

Set Default Proof Using "All".

Lemma clock_wf n : wf_datetime (clock n).
Proof. apply Hclock. Qed.

Lemma clock_le n m :
  (n <= m)%nat -> to_us (clock n) <= to_us (clock m).
Proof.
  induction 1 as [ | m Hle IH ]; [ lia | ].
  destruct Hclock as [_ Hmono]. specialize (Hmono m). lia.
Qed.

Lemma sound_later a a' :
  self a' = self a -> (reads a <= reads a')%nat -> sound a -> sound a'.
Proof.
  unfold sound, timeline_ok. intros -> Hr (Hinv & Ht & Hs).
  split; [ exact Hinv | ]. split; [ exact Ht | ].
  intros d Hd. destruct (Hs d Hd) as (Hwf & He & Hle).
  pose proof (clock_le _ _ Hr).
  split; [ exact Hwf | split; [ exact He | lia ] ].
Qed.

Ltac starts :=
  repeat match goal with
         | H : forall d, Some ?x = Some d -> _ |- _ =>
           specialize (H x eq_refl)
         | H : forall d, None = Some d -> _ |- _ => clear H
         | H : _ /\ _ |- _ => destruct H
         end.

Ltac no_raise :=
  repeat match goal with
         | H : timedelta_sub ?x (datetime_sub ?t ?d) = _ |- _ =>
           rewrite (timer_remaining_returns x t d) in H
             by (first [ assumption | apply clock_wf ]);
           first [ discriminate H | injection H as H ]
         end.

Lemma update_display_returns a :
  sound a -> fst (update_display a) = Return tt.
Proof.
  destruct a as [[ct dt al ae m ss se sr tdur ts tr bs sb] td dd md si r].
  unfold sound, timeline_ok, inv.
  cbn [self reads timer_start stopwatch_start stopwatch_elapsed
       timer_duration].
  intros ((Hdur & _) & Ht & _). unfold update_display. mexec.
  cases; starts; no_raise; reflexivity.
Qed.

Lemma update_display_sound a :
  sound a ->
  fst (update_display a) = Return tt /\ sound (snd (update_display a)).
Proof.
  intros H. split; [ apply update_display_returns; exact H | ].
  apply (sound_later a); [ apply update_display_self
                         | apply update_display_reads | exact H ].
Qed.

Ltac clock_facts r :=
  pose proof (clock_le r (S r) (Nat.le_succ_diag_r r));
  pose proof (clock_le (S r) (S (S r)) (Nat.le_succ_diag_r (S r)));
  pose proof (clock_le (S (S r)) (S (S (S r)))
                (Nat.le_succ_diag_r (S (S r))));
  pose proof (wf_datetime_to_us _ (clock_wf r));
  pose proof (wf_datetime_to_us _ (clock_wf (S r)));
  pose proof (wf_datetime_to_us _ (clock_wf (S (S r)))).

Ltac open_sound H :=
  unfold sound, timeline_ok in H;
  cbn [self reads timer_start stopwatch_start stopwatch_elapsed] in H;
  destruct H as (?Hinv & ?Ht & ?Hs).

Ltac timeline_done :=
  unfold timeline_ok;
  cbn [self reads timer_start stopwatch_start stopwatch_elapsed];
  split; intros ?d ?Hd;
  try discriminate;
  repeat match goal with
         | Hd : _ = Some ?d, H : forall d', _ = Some d' -> _ |- _ =>
           first [ specialize (H d Hd) | clear H ]
         end;
  try match goal with
      | Hd : Some _ = Some _ |- _ => injection Hd as <-
      end;
  repeat match goal with
         | H : _ /\ _ |- _ => destruct H
         end;
  repeat match goal with
         | |- _ /\ _ => split
         | |- wf_datetime _ => first [ assumption | apply clock_wf ]
         end;
  repeat match goal with
         | H : _ |- _ => progress (unfold datetime_sub, timedelta_zero in H)
         end;
  unfold datetime_sub, timedelta_zero; lia.

Ltac sound_done :=
  unfold sound; split; [ solve [ inv_done ] | solve [ timeline_done ] ].

Lemma update_time_sound a :
  sound a ->
  fst (update_time a) = Return tt /\ sound (snd (update_time a)).
Proof.
  destruct a as [[ct dt al ae m ss se sr tdur ts tr bs sb] td dd md si r].
  intros H. pose proof H as ((Hdur & _) & _).
  cbn [self timer_duration] in Hdur.
  open_sound H. clock_facts r.
  unfold update_time. mexec.
  cases; starts; no_raise; apply update_display_sound; sound_done.
Qed.

Lemma cycle_mode_sound a :
  sound a ->
  fst (cycle_mode a) = Return tt /\ sound (snd (cycle_mode a)).
Proof.
  rewrite cycle_mode_next.
  destruct a as [[ct dt al ae m ss se sr tdur ts tr bs sb] td dd md si r].
  intros H. open_sound H. mexec. split; [ reflexivity | sound_done ].
Qed.

Lemma handle_set_sound a :
  sound a ->
  fst (handle_set a) = Return tt /\ sound (snd (handle_set a)).
Proof.
  destruct a as [[ct dt al ae m ss se sr tdur ts tr bs sb] td dd md si r].
  intros H. open_sound H. unfold handle_set. mexec.
  cases; (split; [ reflexivity | sound_done ]).
Qed.

Ltac replaced :=
  rewrite ?replace_hour, ?replace_minute, ?replace_second by mod_bound.

Lemma handle_prev_sound a :
  sound a ->
  fst (handle_prev a) = Return tt /\ sound (snd (handle_prev a)).
Proof.
  destruct a as [[ct dt al ae m ss se sr tdur ts tr bs sb] td dd md si r].
  intros H. pose proof (handle_prev_inv _ (proj1 H)) as Hinv'.
  open_sound H. revert Hinv'. unfold handle_prev. mexec.
  destruct m; mexec; replaced; mexec; intros Hinv';
    (split; [ reflexivity | split; [ exact Hinv' | timeline_done ] ]).
Qed.

Lemma handle_next_sound a :
  sound a ->
  fst (handle_next a) = Return tt /\ sound (snd (handle_next a)).
Proof.
  destruct a as [[ct dt al ae m ss se sr tdur ts tr bs sb] td dd md si r].
  intros H. pose proof (handle_next_inv _ (proj1 H)) as Hinv'.
  open_sound H. revert Hinv'. unfold handle_next. mexec.
  destruct m; mexec; replaced; mexec; intros Hinv';
    (split; [ reflexivity | split; [ exact Hinv' | timeline_done ] ]).
Qed.

Lemma handle_light_sound a :
  sound a ->
  fst (handle_light a) = Return tt /\ sound (snd (handle_light a)).
Proof.
  destruct a as [[ct dt al ae m ss se sr tdur ts tr bs sb] td dd md si r].
  intros H. pose proof (handle_light_inv _ (proj1 H)) as Hinv'.
  open_sound H. revert Hinv'. unfold handle_light. mexec.
  cases; intros Hinv';
    (split; [ reflexivity | split; [ exact Hinv' | timeline_done ] ]).
Qed.

Lemma resume_returns t start elapsed :
  wf_datetime start -> 0 <= elapsed ->
  to_us start + elapsed <= to_us t -> wf_datetime t ->
  exists resumed,
    datetime_sub_timedelta t elapsed = Return resumed /\
    wf_datetime resumed /\
    to_us resumed = to_us t - elapsed.
Proof.
  intros Hs He Hle Ht. apply datetime_sub_timedelta_in_range.
  apply wf_datetime_to_us in Hs, Ht. lia.
Qed.

Lemma handle_start_stop_sound a :
  sound a ->
  fst (handle_start_stop a) = Return tt /\
  sound (snd (handle_start_stop a)).
Proof.
  destruct a as [[ct dt al ae m ss se sr tdur ts tr bs sb] td dd md si r].
  intros H. pose proof (handle_start_stop_inv _ (proj1 H)) as Hinv'.
  open_sound H. clock_facts r. revert Hinv'.
  unfold handle_start_stop. mexec.
  destruct m; mexec; try (intros; split; [ reflexivity | sound_done ]).
  - destruct sr; mexec;
      [ intros; split; [ reflexivity | sound_done ] | ].
    destruct ss as [start | ]; mexec;
      [ | intros; split; [ reflexivity | sound_done ] ].
    destruct (Hs start eq_refl) as (Hwf & He & Hle).
    destruct (resume_returns (clock r) start se Hwf He Hle (clock_wf r))
      as (resumed & -> & Hwf' & Hus).
    mexec. intros Hinv'.
    split; [ reflexivity | split; [ exact Hinv' | timeline_done ] ].
  - destruct tr; mexec; intros; (split; [ reflexivity | sound_done ]).
Qed.

Lemma dispatch_sound ev a :
  sound a -> fst (dispatch ev a) = Return tt /\ sound (snd (dispatch ev a)).
Proof.
  destruct ev as [ | button_id ]; cbn [dispatch].
  - apply update_time_sound.
  - unfold on_button_pressed.
    repeat match goal with
           | |- context [if ?b then _ else _] => destruct b
           end;
      auto using cycle_mode_sound, handle_set_sound, handle_prev_sound,
        handle_next_sound, handle_start_stop_sound, handle_light_sound.
Qed.

Lemma startup_sound :
  fst (startup blank) = Return tt /\ sound (snd (startup blank)).
Proof.
  unfold startup, on_mount, bind. rewrite init_blank.
  apply update_display_sound. split.
  - split; [ exists 5; split; [ lia | reflexivity ] | ].
    split; [ split; cbn; intros; discriminate | reflexivity ].
  - split; cbn; intros; discriminate.
Qed.

Lemma run_sound evs :
  forall a,
    sound a -> fst (run evs a) = Return tt /\ sound (snd (run evs a)).
Proof.
  induction evs as [ | ev rest IH ]; intros a Ha.
  - split; [ reflexivity | exact Ha ].
  - cbn [run]. unfold bind.
    destruct (dispatch_sound ev a Ha) as [Hret Hsound].
    destruct (dispatch ev a) as [[[] | e] a1]; cbn [fst snd] in *;
      [ | discriminate ].
    apply IH. exact Hsound.
Qed.

Lemma reachable_sound a : reachable a -> sound a.
Proof.
  apply (reachable_invariant sound).
  - intros a0 H. replace a0 with (snd (startup blank))
      by (rewrite H; reflexivity).
    apply startup_sound.
  - intros ev a0 a' H Hd.
    replace a' with (snd (dispatch ev a0)) by (rewrite Hd; reflexivity).
    apply dispatch_sound. exact H.
Qed.

End MonotoneClock.

(** ** Stopwatch resume, and totality *)

(** C8: with a clock that never runs backwards, pressing START/STOP in
    [STOPWATCH] mode on a paused stopwatch that shows [e > 0], at clock
    value [t], completes, sets [stopwatch_start] to the datetime [t - e],
    raises [stopwatch_running] and keeps [e]; the next tick, at clock
    value [t'], then shows [e + (t' - t)]: the time before the pause plus
    the time since the resume, without the pause itself. *)
Theorem stopwatch_resume_continues_from_elapsed :
  clock_ok ->
  forall a e,
    reachable a ->
    mode (self a) = STOPWATCH ->
    stopwatch_running (self a) = false ->
    stopwatch_elapsed (self a) = e ->
    0 < e ->
    let t := clock (reads a) in
    let a1 := snd (handle_start_stop a) in
    let t' := clock (reads a1) in
    fst (handle_start_stop a) = Return tt /\
    (exists resumed,
        stopwatch_start (self a1) = Some resumed /\
        datetime_sub_timedelta t e = Return resumed /\
        to_us resumed = to_us t - e) /\
    stopwatch_running (self a1) = true /\
    stopwatch_elapsed (self a1) = e /\
    stopwatch_elapsed (self (snd (update_time a1))) = e + datetime_sub t' t.
Proof.
  intros Hclock a e Hreach.
  pose proof (reachable_sound Hclock a Hreach) as Hsound.
  destruct a as [[ct dt al ae m ss se sr tdur ts tr bs sb] td dd md si r].
  destruct Hsound as ((_ & _ & Hnone) & _ & Hs).
  cbn [self reads mode stopwatch_running stopwatch_elapsed stopwatch_start]
    in *.
  intros -> -> -> He. cbv zeta.
  destruct ss as [start | ];
    [ | specialize (Hnone eq_refl); unfold timedelta_zero in Hnone; lia ].
  destruct (Hs start eq_refl) as (Hwf & He0 & Hle).
  destruct (resume_returns Hclock (clock r) start e Hwf He0 Hle
              (clock_wf Hclock r)) as (resumed & Hres & Hwf' & Hus).
  unfold handle_start_stop. mexec. rewrite Hres. mexec.
  split; [ reflexivity | ].
  split; [ exists resumed; repeat split; assumption | ].
  split; [ reflexivity | ]. split; [ reflexivity | ].
  unfold update_time. mexec.
  cases; rewrite ?update_display_self; cbn [stopwatch_elapsed self snd];
    unfold datetime_sub; lia.
Qed.

(** C9: with a clock that never runs backwards, in every reachable
    application the tick and each of the six handlers complete without an
    exception, as does a button message with any id, and every sequence of
    events runs to its end. *)
Theorem every_operation_completes :
  clock_ok ->
  forall a,
    reachable a ->
    fst (update_time a) = Return tt /\
    fst (cycle_mode a) = Return tt /\
    fst (handle_set a) = Return tt /\
    fst (handle_prev a) = Return tt /\
    fst (handle_next a) = Return tt /\
    fst (handle_start_stop a) = Return tt /\
    fst (handle_light a) = Return tt /\
    (forall button_id, fst (on_button_pressed button_id a) = Return tt) /\
    (forall evs, fst (run evs a) = Return tt) /\
    (forall evs, fst ((startup ;; run evs) blank) = Return tt).
Proof.
  intros Hclock a Hreach.
  pose proof (reachable_sound Hclock a Hreach) as Hsound.
  split; [ apply (update_time_sound Hclock); exact Hsound | ].
  split; [ apply (cycle_mode_sound Hclock); exact Hsound | ].
  split; [ apply (handle_set_sound Hclock); exact Hsound | ].
  split; [ apply (handle_prev_sound Hclock); exact Hsound | ].
  split; [ apply (handle_next_sound Hclock); exact Hsound | ].
  split; [ apply (handle_start_stop_sound Hclock); exact Hsound | ].
  split; [ apply (handle_light_sound Hclock); exact Hsound | ].
  split; [ intros button_id;
           apply (dispatch_sound Hclock (Pressed button_id)); exact Hsound | ].
  split; [ intros evs; apply (run_sound Hclock); exact Hsound | ].
  intros evs. unfold bind.
  destruct (startup_sound Hclock) as [Hret Hs0].
  destruct (startup blank) as [[[] | e] a0]; cbn [fst snd] in *;
    [ | discriminate ].
  apply (run_sound Hclock). exact Hs0.
Qed.

(** ** MODE, SET and the buttons that do nothing *)

Set Default Proof Using "Type".

(** X1: MODE completes in every state, assigns nothing but the mode, and
    always lands on a top-level mode, following
    TIME, ALARM, STOPWATCH, TIMER, TIME. *)
Theorem cycle_mode_assigns_only_mode :
  forall a,
    fst (cycle_mode a) = Return tt /\
    self (snd (cycle_mode a))
    = set_mode (mode (self (snd (cycle_mode a)))) (self a) /\
    time_display (snd (cycle_mode a)) = time_display a /\
    date_display (snd (cycle_mode a)) = date_display a /\
    mode_display (snd (cycle_mode a)) = mode_display a /\
    status_info (snd (cycle_mode a)) = status_info a /\
    reads (snd (cycle_mode a)) = reads a /\
    top_level (mode (self (snd (cycle_mode a)))) = true /\
    mode (self (snd (cycle_mode a)))
    = match mode (self a) with
      | TIME => ALARM
      | ALARM => STOPWATCH
      | STOPWATCH => TIMER
      | _ => TIME
      end.
Proof.
  clear clock strftime_long.
  intros [[ct dt al ae m ss se sr tdur ts tr bs sb] td dd md si r].
  rewrite cycle_mode_next. destruct m; repeat split; reflexivity.
Qed.

(** X2: from a top-level mode, four presses of MODE come back to the same
    application. *)
Theorem cycle_mode_four_times :
  forall a,
    top_level (mode (self a)) = true ->
    (cycle_mode ;; cycle_mode ;; cycle_mode ;; cycle_mode) a
    = (Return tt, a).
Proof.
  clear clock strftime_long.
  intros [[ct dt al ae m ss se sr tdur ts tr bs sb] td dd md si r] H.
  unfold bind. rewrite !cycle_mode_next.
  destruct m; try discriminate H; reflexivity.
Qed.

(** X3: from [ALARM], three presses of SET go through the two alarm
    sub-modes and come back to [ALARM] with the alarm enabled, whatever it
    was before, and everything else, the alarm time included, as it was. *)
Theorem handle_set_alarm_round_trip :
  forall a,
    mode (self a) = ALARM ->
    let r := (handle_set ;; handle_set ;; handle_set) a in
    mode (self (snd (handle_set a))) = SET_ALARM_HOUR /\
    mode (self (snd ((handle_set ;; handle_set) a))) = SET_ALARM_MINUTE /\
    fst r = Return tt /\
    self (snd r) = set_alarm_enabled true (self a) /\
    alarm_enabled (self (snd r)) = true /\
    alarm_time (self (snd r)) = alarm_time (self a) /\
    mode (self (snd r)) = ALARM.
Proof.
  clear clock strftime_long.
  intros [[ct dt al ae m ss se sr tdur ts tr bs sb] td dd md si r].
  cbn [self mode]. intros ->. repeat split; reflexivity.
Qed.

(** X4: the buttons that a mode does not list do nothing at all: SET in
    [STOPWATCH] and [TIMER]; PREV and NEXT in [TIME], [ALARM] and
    [STOPWATCH]; START/STOP in [TIME] and in the setting sub-modes; LIGHT
    everywhere but on a stopped stopwatch or a stopped timer. *)
Theorem unlisted_buttons_do_nothing :
  forall a,
    (mode (self a) = STOPWATCH \/ mode (self a) = TIMER ->
     handle_set a = (Return tt, a)) /\
    (mode (self a) = TIME \/ mode (self a) = ALARM
     \/ mode (self a) = STOPWATCH ->
     handle_prev a = (Return tt, a) /\ handle_next a = (Return tt, a)) /\
    (mode (self a) = TIME \/ is_setting (mode (self a)) = true ->
     handle_start_stop a = (Return tt, a)) /\
    ((mode (self a) = STOPWATCH -> stopwatch_running (self a) = true) ->
     (mode (self a) = TIMER -> timer_running (self a) = true) ->
     handle_light a = (Return tt, a)).
Proof.
  clear strftime_long.
  intros [[ct dt al ae m ss se sr tdur ts tr bs sb] td dd md si r].
  cbn [self mode stopwatch_running timer_running].
  split; [ | split; [ | split ] ].
  - intros [-> | ->]; reflexivity.
  - intros [-> | [-> | ->]]; split; reflexivity.
  - intros [-> | H]; [ reflexivity | ].
    destruct m; try discriminate H; reflexivity.
  - intros Hsw Htm. unfold handle_light. mexec.
    destruct m; mexec; try reflexivity.
    + rewrite (Hsw eq_refl). reflexivity.
    + rewrite (Htm eq_refl). reflexivity.
Qed.

(** X5: only MODE and SET change the mode: PREV, NEXT, START/STOP, LIGHT
    and a button message with any other id leave it as it is, whatever
    their outcome. *)
Theorem only_MODE_and_SET_change_mode :
  forall a button_id,
    button_id <> "mode-btn"%string ->
    button_id <> "set-btn"%string ->
    mode (self (snd (on_button_pressed button_id a))) = mode (self a) /\
    mode (self (snd (handle_prev a))) = mode (self a) /\
    mode (self (snd (handle_next a))) = mode (self a) /\
    mode (self (snd (handle_start_stop a))) = mode (self a) /\
    mode (self (snd (handle_light a))) = mode (self a).
Proof.
  clear strftime_long.
  intros [[ct dt al ae m ss se sr tdur ts tr bs sb] td dd md si r]
    button_id Hm Hs.
  assert (Hp : mode (self (snd (handle_prev
                 (mk_app (mk_state ct dt al ae m ss se sr tdur ts tr bs sb)
                    td dd md si r)))) = m)
    by (unfold handle_prev; mexec; cases; reflexivity).
  assert (Hn : mode (self (snd (handle_next
                 (mk_app (mk_state ct dt al ae m ss se sr tdur ts tr bs sb)
                    td dd md si r)))) = m)
    by (unfold handle_next; mexec; cases; reflexivity).
  assert (Hss : mode (self (snd (handle_start_stop
                 (mk_app (mk_state ct dt al ae m ss se sr tdur ts tr bs sb)
                    td dd md si r)))) = m)
    by (unfold handle_start_stop; mexec; cases; reflexivity).
  assert (Hl : mode (self (snd (handle_light
                 (mk_app (mk_state ct dt al ae m ss se sr tdur ts tr bs sb)
                    td dd md si r)))) = m)
    by (unfold handle_light; mexec; cases; reflexivity).
  cbn [self mode]. split; [ | tauto ].
  unfold on_button_pressed.
  destruct (String.eqb_spec button_id "mode-btn"); [ contradiction | ].
  destruct (String.eqb_spec button_id "set-btn"); [ contradiction | ].
  destruct (String.eqb button_id "prev-btn"); [ exact Hp | ].
  destruct (String.eqb button_id "next-btn"); [ exact Hn | ].
  destruct (String.eqb button_id "start-stop-btn"); [ exact Hss | ].
  destruct (String.eqb button_id "light-btn"); [ exact Hl | reflexivity ].
Qed.

(** ** What a tick does *)

Lemma update_time_fields a :
  let s := self a in
  let s' := self (snd (update_time a)) in
  mode s' = mode s /\
  alarm_time s' = alarm_time s /\
  alarm_enabled s' = alarm_enabled s /\
  stopwatch_start s' = stopwatch_start s /\
  stopwatch_running s' = stopwatch_running s /\
  timer_duration s' = timer_duration s /\
  timer_start s' = timer_start s /\
  (mode s = TIME ->
   current_time s' = clock (reads a) /\ display_time s' = clock (reads a)) /\
  (mode s <> TIME ->
   current_time s' = current_time s /\ display_time s' = display_time s) /\
  (stopwatch_running s = false ->
   stopwatch_elapsed s' = stopwatch_elapsed s) /\
  (timer_running s = false -> timer_running s' = false).
Proof.
  destruct a as [[ct dt al ae m ss se sr tdur ts tr bs sb] td dd md si r].
  cbv zeta. unfold update_time. mexec.
  cases; rewrite ?update_display_self;
    cbn [self mode alarm_time alarm_enabled stopwatch_start
         stopwatch_running timer_duration timer_start current_time
         display_time stopwatch_elapsed timer_running reads snd];
    repeat split; intros; try reflexivity; try discriminate;
    try congruence.
Qed.

(** X6: a tick never assigns the mode, the alarm, the stopwatch start and
    running flag, the timer duration and start.  It sets [current_time]
    and [display_time] to the clock in [TIME] mode and leaves them alone
    in every other mode, so the time shown in [ALARM] mode and the date
    are those of the last tick in [TIME] mode.  It leaves the elapsed time
    of a stopped stopwatch alone and never starts a stopped timer. *)
Theorem update_time_assigns_little :
  forall a,
    mode (self (snd (update_time a))) = mode (self a) /\
    alarm_time (self (snd (update_time a))) = alarm_time (self a) /\
    alarm_enabled (self (snd (update_time a))) = alarm_enabled (self a) /\
    stopwatch_start (self (snd (update_time a)))
    = stopwatch_start (self a) /\
    stopwatch_running (self (snd (update_time a)))
    = stopwatch_running (self a) /\
    timer_duration (self (snd (update_time a)))
    = timer_duration (self a) /\
    timer_start (self (snd (update_time a))) = timer_start (self a) /\
    (mode (self a) = TIME ->
     current_time (self (snd (update_time a))) = clock (reads a) /\
     display_time (self (snd (update_time a))) = clock (reads a)) /\
    (mode (self a) <> TIME ->
     current_time (self (snd (update_time a))) = current_time (self a) /\
     display_time (self (snd (update_time a))) = display_time (self a)) /\
    (stopwatch_running (self a) = false ->
     stopwatch_elapsed (self (snd (update_time a)))
     = stopwatch_elapsed (self a)) /\
    (timer_running (self a) = false ->
     timer_running (self (snd (update_time a))) = false).
Proof. intros a. exact (update_time_fields a). Qed.

(** X7: a tick that completes flips [blink_state] in the five setting
    sub-modes and leaves it alone in the other modes; nothing resets it
    when a sub-mode is left. *)
Theorem update_time_blink :
  forall a,
    fst (update_time a) = Return tt ->
    blink_state (self (snd (update_time a)))
    = if is_setting (mode (self a)) then negb (blink_state (self a))
      else blink_state (self a).
Proof.
  intros [[ct dt al ae m ss se sr tdur ts tr bs sb] td dd md si r].
  unfold update_time, is_setting. mexec.
  cases; rewrite ?update_display_self; cbn [fst snd self blink_state];
    intros H; try discriminate H; reflexivity.
Qed.

(** X8: the time set by hand does not survive: completing [SET_SECOND]
    copies the edited [display_time] into [current_time] and returns to
    [TIME], and the next tick replaces both with the clock. *)
Theorem set_time_lasts_until_next_tick :
  forall a,
    mode (self a) = SET_SECOND ->
    let a1 := snd (handle_set a) in
    let a2 := snd (update_time a1) in
    fst (handle_set a) = Return tt /\
    mode (self a1) = TIME /\
    current_time (self a1) = display_time (self a) /\
    current_time (self a2) = clock (reads a) /\
    display_time (self a2) = clock (reads a).
Proof.
  intros a Hm. cbv zeta.
  assert (H1 : handle_set a
               = (Return tt,
                  mk_app (set_mode TIME
                            (set_current_time (display_time (self a))
                               (self a)))
                    (time_display a) (date_display a) (mode_display a)
                    (status_info a) (reads a))).
  { destruct a as [[ct dt al ae m ss se sr tdur ts tr bs sb] td dd md si r].
    cbn [self mode] in Hm. subst m. reflexivity. }
  rewrite H1. cbn [fst snd].
  destruct (update_time_fields
              (mk_app (set_mode TIME
                         (set_current_time (display_time (self a)) (self a)))
                 (time_display a) (date_display a) (mode_display a)
                 (status_info a) (reads a)))
    as (_ & _ & _ & _ & _ & _ & _ & Htime & _).
  specialize (Htime eq_refl). cbn [reads] in Htime.
  repeat split; try reflexivity; apply Htime.
Qed.

Lemma run_ticks_succ n a :
  snd (run (ticks (S n)) a)
  = match fst (update_time a) with
    | Return _ => snd (run (ticks n) (snd (update_time a)))
    | Raise _ => snd (update_time a)
    end.
Proof.
  cbn [ticks repeat run dispatch]. unfold bind.
  destruct (update_time a) as [[[] | e] a1]; reflexivity.
Qed.

Lemma ticks_stopped :
  forall n a,
    (stopwatch_running (self a) = false ->
     stopwatch_running (self (snd (run (ticks n) a))) = false /\
     stopwatch_elapsed (self (snd (run (ticks n) a)))
     = stopwatch_elapsed (self a) /\
     stopwatch_start (self (snd (run (ticks n) a)))
     = stopwatch_start (self a)) /\
    (timer_running (self a) = false ->
     timer_running (self (snd (run (ticks n) a))) = false /\
     timer_duration (self (snd (run (ticks n) a)))
     = timer_duration (self a) /\
     timer_start (self (snd (run (ticks n) a))) = timer_start (self a)).
Proof.
  induction n as [ | n IH ]; intros a.
  - split; intros H; repeat split; try reflexivity; exact H.
  - rewrite run_ticks_succ.
    destruct (update_time_fields a)
      as (_ & _ & _ & Hss & Hsr & Htd & Hts & _ & _ & Hse & Htr).
    destruct (IH (snd (update_time a))) as [IHs IHt].
    destruct (fst (update_time a)).
    + split; intros H.
      * destruct IHs as (H1 & H2 & H3); [ congruence | ].
        repeat split; try congruence. rewrite H2. apply Hse. exact H.
      * destruct IHt as (H1 & H2 & H3); [ apply Htr; exact H | ].
        repeat split; congruence.
    + split; intros H.
      * repeat split; try congruence. apply Hse. exact H.
      * repeat split; try congruence. apply Htr. exact H.
Qed.

(** X9: ticks alone never move a stopped stopwatch or a stopped timer:
    after any number of them the stopwatch is still stopped with the same
    elapsed time and start, and a timer that was not running, whether
    never started, stopped by hand or expired, is still not running, with
    the same duration and start. *)
Theorem ticks_keep_stopped_things_stopped :
  forall n a,
    (stopwatch_running (self a) = false ->
     stopwatch_running (self (snd (run (ticks n) a))) = false /\
     stopwatch_elapsed (self (snd (run (ticks n) a)))
     = stopwatch_elapsed (self a) /\
     stopwatch_start (self (snd (run (ticks n) a)))
     = stopwatch_start (self a)) /\
    (timer_running (self a) = false ->
     timer_running (self (snd (run (ticks n) a))) = false /\
     timer_duration (self (snd (run (ticks n) a)))
     = timer_duration (self a) /\
     timer_start (self (snd (run (ticks n) a))) = timer_start (self a)).
Proof. exact ticks_stopped. Qed.

(** ** Stopwatch, timer and alarm under START/STOP and LIGHT *)

(** X10: the first START/STOP on a stopwatch that has no start completes
    under any clock, records the clock value [t] as the start, zeroes the
    elapsed time and raises the running flag; the next tick, at clock
    value [t'], shows [t' - t]. *)
Theorem stopwatch_first_start :
  forall a,
    mode (self a) = STOPWATCH ->
    stopwatch_running (self a) = false ->
    stopwatch_start (self a) = None ->
    let a1 := snd (handle_start_stop a) in
    fst (handle_start_stop a) = Return tt /\
    stopwatch_start (self a1) = Some (clock (reads a)) /\
    stopwatch_elapsed (self a1) = timedelta_zero /\
    stopwatch_running (self a1) = true /\
    stopwatch_elapsed (self (snd (update_time a1)))
    = datetime_sub (clock (reads a1)) (clock (reads a)).
Proof.
  intros [[ct dt al ae m ss se sr tdur ts tr bs sb] td dd md si r].
  cbn [self mode stopwatch_running stopwatch_start reads].
  intros -> -> ->. cbv zeta. unfold handle_start_stop. mexec.
  repeat split. unfold update_time. mexec.
  cases; rewrite ?update_display_self; reflexivity.
Qed.

(** X11: LIGHT on a stopped stopwatch clears the start and the elapsed
    time and nothing else; START/STOP pressed after it completes under any
    clock and starts again from zero at the clock value it reads. *)
Theorem handle_light_resets_stopwatch :
  forall a,
    mode (self a) = STOPWATCH ->
    stopwatch_running (self a) = false ->
    handle_light a
    = (Return tt,
       mk_app
         (set_stopwatch_elapsed timedelta_zero
            (set_stopwatch_start None (self a)))
         (time_display a) (date_display a) (mode_display a)
         (status_info a) (reads a)) /\
    fst ((handle_light ;; handle_start_stop) a) = Return tt /\
    stopwatch_start (self (snd ((handle_light ;; handle_start_stop) a)))
    = Some (clock (reads a)) /\
    stopwatch_elapsed (self (snd ((handle_light ;; handle_start_stop) a)))
    = timedelta_zero /\
    stopwatch_running (self (snd ((handle_light ;; handle_start_stop) a)))
    = true.
Proof.
  clear strftime_long.
  intros [[ct dt al ae m ss se sr tdur ts tr bs sb] td dd md si r].
  cbn [self mode stopwatch_running]. intros -> ->.
  repeat split; reflexivity.
Qed.

(** X12: START/STOP on a running stopwatch only lowers the running flag,
    and the elapsed time it leaves is still there after any number of
    ticks. *)
Theorem stopwatch_stop_freezes_elapsed :
  forall n a,
    mode (self a) = STOPWATCH ->
    stopwatch_running (self a) = true ->
    let a1 := snd (handle_start_stop a) in
    fst (handle_start_stop a) = Return tt /\
    self a1 = set_stopwatch_running false (self a) /\
    stopwatch_running (self (snd (run (ticks n) a1))) = false /\
    stopwatch_elapsed (self (snd (run (ticks n) a1)))
    = stopwatch_elapsed (self a) /\
    stopwatch_start (self (snd (run (ticks n) a1)))
    = stopwatch_start (self a).
Proof.
  intros n a Hm Hr. cbv zeta.
  assert (H1 : handle_start_stop a
               = (Return tt,
                  mk_app (set_stopwatch_running false (self a))
                    (time_display a) (date_display a) (mode_display a)
                    (status_info a) (reads a))).
  { destruct a as [[ct dt al ae m ss se sr tdur ts tr bs sb] td dd md si r].
    cbn [self mode stopwatch_running] in Hm, Hr. subst m sr. reflexivity. }
  rewrite H1. cbn [fst snd self].
  split; [ reflexivity | ]. split; [ reflexivity | ].
  destruct (ticks_stopped n
              (mk_app (set_stopwatch_running false (self a))
                 (time_display a) (date_display a) (mode_display a)
                 (status_info a) (reads a))) as [Hs _].
  exact (Hs eq_refl).
Qed.

(** X13: START/STOP on a stopped timer completes under any clock, records
    the clock value as [timer_start], whatever start was there before, and
    raises the running flag; on a running timer it only lowers the flag.
    So stopping and starting again begins a new countdown of the full
    duration from the clock value read at the restart. *)
Theorem timer_start_stop :
  forall a,
    mode (self a) = TIMER ->
    (timer_running (self a) = false ->
     handle_start_stop a
     = (Return tt,
        mk_app
          (set_timer_running true
             (set_timer_start (Some (clock (reads a))) (self a)))
          (time_display a) (date_display a) (mode_display a)
          (status_info a) (S (reads a)))) /\
    (timer_running (self a) = true ->
     handle_start_stop a
     = (Return tt,
        mk_app (set_timer_running false (self a))
          (time_display a) (date_display a) (mode_display a)
          (status_info a) (reads a)) /\
     fst ((handle_start_stop ;; handle_start_stop) a) = Return tt /\
     timer_running
       (self (snd ((handle_start_stop ;; handle_start_stop) a))) = true /\
     timer_start
       (self (snd ((handle_start_stop ;; handle_start_stop) a)))
     = Some (clock (reads a)) /\
     timer_duration
       (self (snd ((handle_start_stop ;; handle_start_stop) a)))
     = timer_duration (self a)).
Proof.
  clear strftime_long.
  intros [[ct dt al ae m ss se sr tdur ts tr bs sb] td dd md si r].
  cbn [self mode timer_running reads]. intros ->.
  split; intros ->; repeat split; reflexivity.
Qed.

(** X14: in [TIMER] mode with [k] whole minutes set, PREV then NEXT gives
    [k] back except at the lower stop, where 1 becomes 2; NEXT then PREV
    gives [k] back except at the upper stop, where 99 becomes 98. *)
Theorem timer_prev_next_at_the_stops :
  forall a k,
    mode (self a) = TIMER ->
    timer_duration (self a) = timedelta_minutes k ->
    1 <= k <= 99 ->
    timer_duration (self (snd ((handle_prev ;; handle_next) a)))
    = timedelta_minutes (if k =? 1 then 2 else k) /\
    timer_duration (self (snd ((handle_next ;; handle_prev) a)))
    = timedelta_minutes (if k =? 99 then 98 else k).
Proof.
  clear clock strftime_long.
  intros [[ct dt al ae m ss se sr tdur ts tr bs sb] td dd md si r] k.
  cbn [self mode timer_duration]. intros -> -> Hk.
  unfold handle_prev, handle_next. mexec.
  rewrite !minutes_of_timedelta_minutes.
  destruct (Z.eqb_spec k 1); destruct (Z.eqb_spec k 99);
    split; f_equal; lia.
Qed.

(** X15: START/STOP in [ALARM] mode negates [alarm_enabled] and assigns
    nothing else, so two presses restore the application. *)
Theorem alarm_toggle :
  forall a,
    mode (self a) = ALARM ->
    handle_start_stop a
    = (Return tt,
       mk_app (set_alarm_enabled (negb (alarm_enabled (self a))) (self a))
         (time_display a) (date_display a) (mode_display a)
         (status_info a) (reads a)) /\
    (handle_start_stop ;; handle_start_stop) a = (Return tt, a).
Proof.
  clear strftime_long.
  intros [[ct dt al ae m ss se sr tdur ts tr bs sb] td dd md si r].
  cbn [self mode]. intros ->. destruct ae; split; reflexivity.
Qed.

(** ** Where exceptions can come from *)

Lemma replace_mod_hour d x :
  replace d (Some (x mod 24)) None None None
  = Return (mk_datetime (ordinal d) (x mod 24) (minute d) (second d)
              (microsecond d)).
Proof. clear clock strftime_long. apply replace_hour. mod_bound. Qed.

Lemma replace_mod_minute d x :
  replace d None (Some (x mod 60)) None None
  = Return (mk_datetime (ordinal d) (hour d) (x mod 60) (second d)
              (microsecond d)).
Proof. clear clock strftime_long. apply replace_minute. mod_bound. Qed.

Lemma replace_mod_second d x :
  replace d None None (Some (x mod 60)) None
  = Return (mk_datetime (ordinal d) (hour d) (minute d) (x mod 60)
              (microsecond d)).
Proof. clear clock strftime_long. apply replace_second. mod_bound. Qed.

Lemma handle_prev_returns a : fst (handle_prev a) = Return tt.
Proof.
  clear clock strftime_long.
  destruct a as [[ct dt al ae m ss se sr tdur ts tr bs sb] td dd md si r].
  unfold handle_prev. mexec.
  destruct m; mexec;
    rewrite ?replace_mod_hour, ?replace_mod_minute, ?replace_mod_second;
    reflexivity.
Qed.

Lemma handle_next_returns a : fst (handle_next a) = Return tt.
Proof.
  clear clock strftime_long.
  destruct a as [[ct dt al ae m ss se sr tdur ts tr bs sb] td dd md si r].
  unfold handle_next. mexec.
  destruct m; mexec;
    rewrite ?replace_mod_hour, ?replace_mod_minute, ?replace_mod_second;
    reflexivity.
Qed.

(** X16: in every state, reachable or not, and under any clock, MODE,
    SET, PREV, NEXT and LIGHT complete: the modulo keeps every edited
    field inside the range [replace] accepts, and the [IndexError] of the
    mode list cannot occur.  So does a button message with any id other
    than that of START/STOP. *)
Theorem five_handlers_never_raise :
  forall a button_id,
    button_id <> "start-stop-btn"%string ->
    fst (cycle_mode a) = Return tt /\
    fst (handle_set a) = Return tt /\
    fst (handle_prev a) = Return tt /\
    fst (handle_next a) = Return tt /\
    fst (handle_light a) = Return tt /\
    fst (on_button_pressed button_id a) = Return tt.
Proof.
  intros a button_id Hid.
  assert (Hc : fst (cycle_mode a) = Return tt)
    by (rewrite cycle_mode_next; reflexivity).
  assert (Hs : fst (handle_set a) = Return tt).
  { destruct a as [[ct dt al ae m ss se sr tdur ts tr bs sb] td dd md si r].
    destruct m; reflexivity. }
  assert (Hl : fst (handle_light a) = Return tt).
  { destruct a as [[ct dt al ae m ss se sr tdur ts tr bs sb] td dd md si r].
    unfold handle_light. mexec. cases; reflexivity. }
  pose proof (handle_prev_returns a) as Hp.
  pose proof (handle_next_returns a) as Hn.
  repeat (split; [ assumption | ]).
  unfold on_button_pressed.
  destruct (String.eqb button_id "mode-btn"); [ exact Hc | ].
  destruct (String.eqb button_id "set-btn"); [ exact Hs | ].
  destruct (String.eqb button_id "prev-btn"); [ exact Hp | ].
  destruct (String.eqb button_id "next-btn"); [ exact Hn | ].
  destruct (String.eqb_spec button_id "start-stop-btn"); [ contradiction | ].
  destruct (String.eqb button_id "light-btn"); [ exact Hl | reflexivity ].
Qed.

Lemma datetime_sub_timedelta_raises d td e :
  datetime_sub_timedelta d td = Raise e ->
  e = OverflowError /\
  ~ (US_PER_DAY <= to_us d - td < (MAXORDINAL + 1) * US_PER_DAY).
Proof.
  clear clock strftime_long.
  intros H. split.
  - unfold datetime_sub_timedelta in H. cbv zeta in H.
    destruct ((0 <? days (to_us d - td))
              && (days (to_us d - td) <=? MAXORDINAL));
      [ discriminate H | congruence ].
  - intros Hr.
    destruct (datetime_sub_timedelta_in_range d td Hr) as (r & Hret & _).
    congruence.
Qed.

(** X17: START/STOP can raise only when it resumes a stopwatch: if it
    raises, the exception is [OverflowError], the mode is [STOPWATCH], the
    stopwatch is stopped with a start set, the clock value read minus the
    elapsed time falls outside the datetimes of years 1 to 9999, and no
    attribute has been assigned. *)
Theorem handle_start_stop_raises_only_on_resume :
  forall a e,
    fst (handle_start_stop a) = Raise e ->
    e = OverflowError /\
    mode (self a) = STOPWATCH /\
    stopwatch_running (self a) = false /\
    (exists d, stopwatch_start (self a) = Some d) /\
    ~ (US_PER_DAY
       <= to_us (clock (reads a)) - stopwatch_elapsed (self a)
       < (MAXORDINAL + 1) * US_PER_DAY) /\
    self (snd (handle_start_stop a)) = self a.
Proof.
  clear strftime_long.
  intros [[ct dt al ae m ss se sr tdur ts tr bs sb] td dd md si r] e.
  unfold handle_start_stop. mexec.
  destruct m; mexec; try discriminate.
  - destruct sr; mexec; [ discriminate | ].
    destruct ss as [start | ]; mexec; [ | discriminate ].
    destruct (datetime_sub_timedelta (clock r) se) as [d | e'] eqn:Hsub;
      mexec; [ discriminate | ].
    intros H. injection H as <-.
    destruct (datetime_sub_timedelta_raises _ _ _ Hsub) as [He Hout].
    repeat split; try assumption; try reflexivity.
    exists start. reflexivity.
  - destruct tr; mexec; discriminate.
Qed.

Lemma timedelta_sub_raises a b e :
  timedelta_sub a b = Raise e -> e = OverflowError.
Proof.
  clear clock strftime_long.
  unfold timedelta_sub. cbv zeta.
  destruct ((- MAX_DELTA_DAYS <=? days (a - b))
            && (days (a - b) <=? MAX_DELTA_DAYS));
    [ discriminate | congruence ].
Qed.

(** X18: rendering and ticking can raise only through the subtraction
    that computes the time left on a running timer: if [update_display]
    raises, the mode is [TIMER]; if either raises, the exception is
    [OverflowError] and the timer is running with its start set. *)
Theorem render_and_tick_raise_only_on_timer_arithmetic :
  forall a e,
    (fst (update_display a) = Raise e ->
     e = OverflowError /\
     mode (self a) = TIMER /\
     timer_running (self a) = true /\
     exists d, timer_start (self a) = Some d) /\
    (fst (update_time a) = Raise e ->
     e = OverflowError /\
     timer_running (self a) = true /\
     exists d, timer_start (self a) = Some d).
Proof.
  intros [[ct dt al ae m ss se sr tdur ts tr bs sb] td dd md si r] e.
  split.
  - unfold update_display. mexec.
    cases; intros H; try discriminate H; injection H as <-;
      repeat split; eauto using timedelta_sub_raises.
  - unfold update_time. mexec.
    cases;
      try match goal with
          | |- fst (update_display ?x) = Raise _ -> _ =>
            let H := fresh "H" in
            intros H; revert H;
            destruct (update_display x) as [[[] | e'] a'] eqn:Hud;
            cbn [fst]; intros H; [ discriminate H | ];
            injection H as <-;
            assert (Hf : fst (update_display x) = Raise e')
              by (rewrite Hud; reflexivity);
            clear Hud; revert Hf
          end;
      try (intros H; discriminate H).
    all: try (intros H; injection H as <-;
              repeat split; eauto using timedelta_sub_raises).
    all: unfold update_display; mexec;
      cases; intros H; try discriminate H; injection H as <-;
      repeat split; eauto using timedelta_sub_raises.
Qed.

(** ** Datetimes stay valid *)

Lemma datetime_sub_timedelta_wf d td r :
  datetime_sub_timedelta d td = Return r -> wf_datetime r.
Proof.
  clear clock strftime_long.
  unfold datetime_sub_timedelta. cbv zeta.
  destruct (Z.ltb_spec 0 (days (to_us d - td))) as [Hlo | Hlo];
    cbn [andb]; [ | discriminate ].
  destruct (Z.leb_spec (days (to_us d - td)) MAXORDINAL) as [Hhi | Hhi];
    [ | discriminate ].
  intros Heq. injection Heq as <-.
  unfold wf_datetime, seconds, microseconds, days in *.
  cbn [ordinal hour minute second microsecond].
  set (x := to_us d - td) in *.
  unfold US_PER_DAY, US_PER_SECOND, MAXORDINAL in *.
  Z.div_mod_to_equations. lia.
Qed.

Section ValidClock.

Hypothesis Hwf : forall n, wf_datetime (clock n).

Set Default Proof Using "All".

Ltac times_done :=
  repeat match goal with
         | H : _ |- _ =>
           progress (unfold times_ok, datetimes_valid in H)
         | H : _ |- _ =>
           progress (cbn [self current_time display_time alarm_time
                          stopwatch_start timer_start] in H)
         | H : _ /\ _ |- _ => destruct H
         end;
  unfold times_ok, datetimes_valid;
  cbn [current_time display_time alarm_time stopwatch_start timer_start
       second microsecond];
  repeat match goal with
         | |- _ /\ _ => split
         | |- forall _, _ => intro
         end;
  try assumption; try discriminate; try reflexivity;
  try match goal with
      | H : Some _ = Some _ |- _ => injection H as <-
      end;
  try match goal with
      | H : datetime_sub_timedelta _ _ = Return ?r |- wf_datetime ?r =>
        exact (datetime_sub_timedelta_wf _ _ _ H)
      | H : forall d, _ = Some d -> wf_datetime d, E : _ = Some ?x
        |- wf_datetime ?x => exact (H x E)
      | |- wf_datetime (clock ?n) => apply Hwf
      | H : forall d', Some ?x = Some d' -> wf_datetime d'
        |- wf_datetime ?x => exact (H x eq_refl)
      end;
  try (repeat match goal with
              | H : wf_datetime _ |- _ => unfold wf_datetime in H
              end;
       unfold wf_datetime;
       cbn [ordinal hour minute second microsecond] in *;
       unfold MAXORDINAL, US_PER_SECOND in *;
       repeat match goal with
              | |- context [?x mod 24] =>
                lazymatch goal with
                | _ : 0 <= x mod 24 < 24 |- _ => fail
                | _ => pose proof (Z.mod_pos_bound x 24 ltac:(lia))
                end
              | |- context [?x mod 60] =>
                lazymatch goal with
                | _ : 0 <= x mod 60 < 60 |- _ => fail
                | _ => pose proof (Z.mod_pos_bound x 60 ltac:(lia))
                end
              end;
       lia).

Lemma update_time_times_ok a :
  times_ok (self a) -> times_ok (self (snd (update_time a))).
Proof.
  destruct a as [[ct dt al ae m ss se sr tdur ts tr bs sb] td dd md si r].
  intros H. pose proof (Hwf r). unfold update_time. mexec.
  cases; rewrite ?update_display_self; mexec; times_done.
Qed.

Lemma handle_set_times_ok a :
  times_ok (self a) -> times_ok (self (snd (handle_set a))).
Proof.
  destruct a as [[ct dt al ae m ss se sr tdur ts tr bs sb] td dd md si r].
  intros H. unfold handle_set. mexec. cases; times_done.
Qed.

Lemma handle_prev_times_ok a :
  times_ok (self a) -> times_ok (self (snd (handle_prev a))).
Proof.
  destruct a as [[ct dt al ae m ss se sr tdur ts tr bs sb] td dd md si r].
  intros H. unfold handle_prev. mexec.
  destruct m; mexec;
    rewrite ?replace_mod_hour, ?replace_mod_minute, ?replace_mod_second;
    mexec; times_done.
Qed.

Lemma handle_next_times_ok a :
  times_ok (self a) -> times_ok (self (snd (handle_next a))).
Proof.
  destruct a as [[ct dt al ae m ss se sr tdur ts tr bs sb] td dd md si r].
  intros H. unfold handle_next. mexec.
  destruct m; mexec;
    rewrite ?replace_mod_hour, ?replace_mod_minute, ?replace_mod_second;
    mexec; times_done.
Qed.

Lemma handle_start_stop_times_ok a :
  times_ok (self a) -> times_ok (self (snd (handle_start_stop a))).
Proof.
  destruct a as [[ct dt al ae m ss se sr tdur ts tr bs sb] td dd md si r].
  intros H. pose proof (Hwf r). unfold handle_start_stop. mexec.
  cases; times_done.
Qed.

Lemma handle_light_times_ok a :
  times_ok (self a) -> times_ok (self (snd (handle_light a))).
Proof.
  destruct a as [[ct dt al ae m ss se sr tdur ts tr bs sb] td dd md si r].
  intros H. unfold handle_light. mexec. cases; times_done.
Qed.

Lemma cycle_mode_times_ok a :
  times_ok (self a) -> times_ok (self (snd (cycle_mode a))).
Proof.
  rewrite cycle_mode_next.
  destruct a as [[ct dt al ae m ss se sr tdur ts tr bs sb] td dd md si r].
  intros H. mexec. times_done.
Qed.

Lemma dispatch_times_ok ev a :
  times_ok (self a) -> times_ok (self (snd (dispatch ev a))).
Proof.
  destruct ev as [ | button_id ]; cbn [dispatch].
  - apply update_time_times_ok.
  - unfold on_button_pressed.
    repeat match goal with
           | |- context [if ?b then _ else _] => destruct b
           end;
      auto using cycle_mode_times_ok, handle_set_times_ok,
        handle_prev_times_ok, handle_next_times_ok,
        handle_start_stop_times_ok, handle_light_times_ok.
Qed.

Lemma reachable_times_ok a : reachable a -> times_ok (self a).
Proof.
  apply (reachable_invariant (fun a => times_ok (self a))).
  - intros a0 H. replace a0 with (snd (startup blank))
      by (rewrite H; reflexivity).
    clear H. rewrite startup_self. pose proof (Hwf 0) as H0.
    pose proof (Hwf 1) as H1. times_done.
  - intros ev a0 a' H Hd.
    replace a' with (snd (dispatch ev a0)) by (rewrite Hd; reflexivity).
    apply dispatch_times_ok. exact H.
Qed.

End ValidClock.

Set Default Proof Using "Type".

(** X19: when every clock reading is a valid datetime, every datetime a
    reachable application holds is valid too: [current_time],
    [display_time] and [alarm_time] after any editing, and the stopwatch
    and timer starts, the resumed ones included.  The alarm stays on the
    whole minute: no handler touches its seconds. *)
Theorem reachable_datetimes_valid :
  (forall n, wf_datetime (clock n)) ->
  forall a,
    reachable a ->
    wf_datetime (current_time (self a)) /\
    wf_datetime (display_time (self a)) /\
    wf_datetime (alarm_time (self a)) /\
    (forall d, stopwatch_start (self a) = Some d -> wf_datetime d) /\
    (forall d, timer_start (self a) = Some d -> wf_datetime d) /\
    second (alarm_time (self a)) = 0 /\
    microsecond (alarm_time (self a)) = 0.
Proof.
  intros Hwf a Hreach.
  destruct (reachable_times_ok Hwf a Hreach)
    as ((H1 & H2 & H3 & H4 & H5) & H6 & H7).
  exact (conj H1 (conj H2 (conj H3 (conj H4 (conj H5 (conj H6 H7)))))).
Qed.

(** ** What the display shows *)

Lemma wf_datetime_fields d :
  wf_datetime d ->
  0 <= hour d < 100 /\ 0 <= minute d < 100 /\ 0 <= second d < 100.
Proof. clear clock strftime_long. unfold wf_datetime. lia. Qed.

(** X20: in [TIME] and the three time-setting sub-modes a render
    completes without reading the clock and shows [display_time] as
    [HH:MM:SS], eight characters, where the field being edited is two
    spaces while [blink_state] is off and two digits otherwise; the date
    line is the long date of [current_time]. *)
Theorem update_display_clock_face :
  forall a,
    mode_in (mode (self a)) [TIME; SET_HOUR; SET_MINUTE; SET_SECOND]
    = true ->
    wf_datetime (display_time (self a)) ->
    fst (update_display a) = Return tt /\
    time_display (snd (update_display a))
    = (shown (ClockMode_eqb (mode (self a)) SET_HOUR)
         (blink_state (self a)) (hour (display_time (self a)))
       ++ ":"
       ++ shown (ClockMode_eqb (mode (self a)) SET_MINUTE)
            (blink_state (self a)) (minute (display_time (self a)))
       ++ ":"
       ++ shown (ClockMode_eqb (mode (self a)) SET_SECOND)
            (blink_state (self a)) (second (display_time (self a))))%string /\
    String.length (time_display (snd (update_display a))) = 8%nat /\
    date_display (snd (update_display a))
    = strftime_long (current_time (self a)) /\
    mode_display (snd (update_display a))
    = ("Mode: " ++ value (mode (self a)))%string /\
    reads (snd (update_display a)) = reads a.
Proof.
  intros [[ct dt al ae m ss se sr tdur ts tr bs sb] td dd md si r].
  cbn [self mode display_time blink_state current_time reads].
  intros Hm Hwf. apply wf_datetime_fields in Hwf.
  unfold update_display. mexec.
  destruct m; try discriminate Hm; destruct bs; mexec;
    rewrite ?format_02d_two_digits by lia;
    unfold shown; cbn [andb negb ClockMode_eqb];
    repeat split; reflexivity.
Qed.

(** X21: in [ALARM] and the two alarm-setting sub-modes a render completes
    without reading the clock and shows [alarm_time] as [HH:MM], five
    characters, with the same blanking of the edited field; the date line
    still shows the date of [current_time]. *)
Theorem update_display_alarm_face :
  forall a,
    mode_in (mode (self a)) [ALARM; SET_ALARM_HOUR; SET_ALARM_MINUTE]
    = true ->
    wf_datetime (alarm_time (self a)) ->
    fst (update_display a) = Return tt /\
    time_display (snd (update_display a))
    = (shown (ClockMode_eqb (mode (self a)) SET_ALARM_HOUR)
         (blink_state (self a)) (hour (alarm_time (self a)))
       ++ ":"
       ++ shown (ClockMode_eqb (mode (self a)) SET_ALARM_MINUTE)
            (blink_state (self a)) (minute (alarm_time (self a))))%string /\
    String.length (time_display (snd (update_display a))) = 5%nat /\
    date_display (snd (update_display a))
    = strftime_long (current_time (self a)) /\
    reads (snd (update_display a)) = reads a.
Proof.
  intros [[ct dt al ae m ss se sr tdur ts tr bs sb] td dd md si r].
  cbn [self mode alarm_time blink_state current_time reads].
  intros Hm Hwf. apply wf_datetime_fields in Hwf.
  unfold update_display. mexec.
  destruct m; try discriminate Hm; destruct bs; mexec;
    rewrite ?format_02d_two_digits by lia;
    unfold shown; cbn [andb negb ClockMode_eqb];
    repeat split; reflexivity.
Qed.

(** X22: in [STOPWATCH] mode, for an elapsed time from zero up to 100
    minutes, a render completes without reading the clock and shows
    [MM:SS.CC], eight characters: whole minutes, seconds, and the
    hundredths of the current second rounded down; the date line is
    empty. *)
Theorem update_display_stopwatch_face :
  forall a,
    mode (self a) = STOPWATCH ->
    0 <= stopwatch_elapsed (self a) < 6000 * US_PER_SECOND ->
    let total := stopwatch_elapsed (self a) / US_PER_SECOND in
    fst (update_display a) = Return tt /\
    time_display (snd (update_display a))
    = (two_digits (total / 60) ++ ":" ++ two_digits (total mod 60) ++ "."
         ++ two_digits
              ((stopwatch_elapsed (self a) mod US_PER_SECOND) / 10000))%string /\
    String.length (time_display (snd (update_display a))) = 8%nat /\
    date_display (snd (update_display a)) = EmptyString /\
    reads (snd (update_display a)) = reads a.
Proof.
  intros [[ct dt al ae m ss se sr tdur ts tr bs sb] td dd md si r].
  cbn [self mode stopwatch_elapsed reads]. intros -> He. cbv zeta.
  assert (Htot : 0 <= se / US_PER_SECOND < 6000)
    by (unfold US_PER_SECOND in *; split;
        [ apply Z.div_pos; lia | apply Z.div_lt_upper_bound; lia ]).
  assert (Hmin : 0 <= se / US_PER_SECOND / 60 < 100)
    by (split; [ apply Z.div_pos; lia | apply Z.div_lt_upper_bound; lia ]).
  assert (Hsec : 0 <= (se / US_PER_SECOND) mod 60 < 100)
    by (pose proof (Z.mod_pos_bound (se / US_PER_SECOND) 60); lia).
  assert (Hcs : 0 <= (se mod US_PER_SECOND) / 10000 < 100).
  { pose proof (Z.mod_pos_bound se US_PER_SECOND) as Hb.
    unfold US_PER_SECOND in *.
    split; [ apply Z.div_pos; lia | apply Z.div_lt_upper_bound; lia ]. }
  unfold update_display. mexec. rewrite int_total_seconds_floor by lia.
  unfold microseconds.
  rewrite !format_02d_two_digits by assumption.
  repeat split; reflexivity.
Qed.

Lemma update_display_of_self a b :
  self a = self b ->
  (mode (self a) = TIMER -> timer_running (self a) = true ->
   timer_start (self a) = None) ->
  fst (update_display a) = Return tt /\
  reads (snd (update_display a)) = reads a /\
  time_display (snd (update_display a))
  = time_display (snd (update_display b)) /\
  date_display (snd (update_display a))
  = date_display (snd (update_display b)) /\
  mode_display (snd (update_display a))
  = mode_display (snd (update_display b)) /\
  status_info (snd (update_display a))
  = status_info (snd (update_display b)).
Proof.
  destruct a as [s td dd md si r]. destruct b as [s' td' dd' md' si' r'].
  cbn [self]. intros <-.
  destruct s as [ct dt al ae m ss se sr tdur ts tr bs sb].
  cbn [mode timer_running timer_start]. intros Hnot.
  unfold update_display. mexec.
  cases; repeat split; try reflexivity.
  all: specialize (Hnot eq_refl eq_refl); discriminate Hnot.
Qed.

(** X23: except on a running timer, a render completes, does not read the
    clock, writes widgets that depend on the attributes of [self] alone,
    not on what the widgets showed before, and rendering a second time
    changes nothing. *)
Theorem update_display_idempotent :
  forall a,
    (mode (self a) = TIMER -> timer_running (self a) = true ->
     timer_start (self a) = None) ->
    fst (update_display a) = Return tt /\
    reads (snd (update_display a)) = reads a /\
    (forall b,
        self b = self a ->
        time_display (snd (update_display b))
        = time_display (snd (update_display a)) /\
        date_display (snd (update_display b))
        = date_display (snd (update_display a)) /\
        mode_display (snd (update_display b))
        = mode_display (snd (update_display a)) /\
        status_info (snd (update_display b))
        = status_info (snd (update_display a))) /\
    update_display (snd (update_display a))
    = (Return tt, snd (update_display a)).
Proof.
  intros a Hnot.
  destruct (update_display_of_self a a eq_refl Hnot) as (Hret & Hreads & _).
  split; [ exact Hret | ]. split; [ exact Hreads | ]. split.
  - intros b Hb. rewrite <- Hb in Hnot.
    destruct (update_display_of_self b a Hb Hnot)
      as (_ & _ & H1 & H2 & H3 & H4).
    repeat split; assumption.
  - pose proof (update_display_self a) as Hself.
    rewrite <- Hself in Hnot.
    destruct (update_display_of_self (snd (update_display a)) a Hself Hnot)
      as (Hret' & Hreads' & H1 & H2 & H3 & H4).
    pose proof (update_display_self (snd (update_display a))) as Hself'.
    destruct (update_display (snd (update_display a))) as [o a2].
    cbn [fst snd] in *. subst o. f_equal.
    destruct a2 as [s2 td2 dd2 md2 si2 r2].
    destruct (snd (update_display a)) as [s1 td1 dd1 md1 si1 r1].
    cbn [self time_display date_display mode_display status_info reads]
      in *.
    congruence.
Qed.

(** ** Buttons, startup, and the stopwatch against the clock *)

(** X24: each of the six buttons that [compose] creates has its own
    branch in [on_button_pressed]: MODE, LIGHT, SET, PREV, START/STOP and
    NEXT go to [cycle_mode], [handle_light], [handle_set], [handle_prev],
    [handle_start_stop] and [handle_next]; the six ids are distinct; a
    button message with any other id changes nothing. *)
Theorem every_button_has_its_handler :
  forall a button_id',
    ~ In button_id' (map button_id compose_buttons) ->
    on_button_pressed button_id' a = (Return tt, a) /\
    NoDup (map button_id compose_buttons) /\
    Forall2 (fun b handler =>
               forall a', on_button_pressed (button_id b) a' = handler a')
      compose_buttons
      [cycle_mode; handle_light; handle_set; handle_prev;
       handle_start_stop; handle_next].
Proof.
  clear strftime_long.
  intros a id Hid. cbn [map compose_buttons button_id In] in Hid.
  split; [ | split ].
  - unfold on_button_pressed.
    repeat match goal with
           | |- context [String.eqb id ?s] =>
             destruct (String.eqb_spec id s);
             [ exfalso; subst id; apply Hid; auto 10 | ]
           end.
    reflexivity.
  - cbn [map compose_buttons button_id].
    repeat (constructor;
            [ cbn [In]; intros H;
              repeat (destruct H as [H | H]; [ discriminate H | ]);
              exact H | ]).
    constructor.
  - repeat (constructor; [ intros a'; reflexivity | ]). constructor.
Qed.

(** X25: construction and mounting complete under any clock and read it
    twice.  The application starts in [TIME] mode showing the first
    reading, with the alarm at 07:00:00 on the day of the second reading
    and disabled, the stopwatch and timer stopped with no start, no
    elapsed time and five minutes set, and [blink_state] on. *)
Theorem startup_state :
  fst (startup blank) = Return tt /\
  self (snd (startup blank))
  = mk_state (clock 0) (clock 0) (mk_datetime (ordinal (clock 1)) 7 0 0 0)
      false TIME None timedelta_zero false (timedelta_minutes 5) None false
      true false /\
  reads (snd (startup blank)) = 2%nat /\
  time_display (snd (startup blank))
  = (format_02d (hour (clock 0)) ++ ":" ++ format_02d (minute (clock 0))
       ++ ":" ++ format_02d (second (clock 0)))%string /\
  date_display (snd (startup blank)) = strftime_long (clock 0) /\
  mode_display (snd (startup blank)) = "Mode: TIME"%string /\
  status_info (snd (startup blank)) = EmptyString.
Proof.
  unfold startup, on_mount, bind. rewrite init_blank.
  unfold update_display. mexec. repeat split; reflexivity.
Qed.

(** X26: under a clock that never runs backwards, the stopwatch of a
    reachable application never shows a negative time, and never more than
    the clock has advanced since its start. *)
Theorem stopwatch_elapsed_bounded_by_clock :
  clock_ok ->
  forall a,
    reachable a ->
    0 <= stopwatch_elapsed (self a) /\
    (forall d,
        stopwatch_start (self a) = Some d ->
        wf_datetime d /\
        to_us d + stopwatch_elapsed (self a) <= to_us (clock (reads a))).
Proof.
  intros Hclock a Hreach.
  destruct (reachable_sound Hclock a Hreach) as ((_ & _ & Hnone) & _ & Hs).
  split.
  - destruct (stopwatch_start (self a)) as [d | ] eqn:Hd.
    + apply (Hs d eq_refl).
    + rewrite (Hnone eq_refl). unfold timedelta_zero. lia.
  - intros d Hd. destruct (Hs d Hd) as (Hwf & _ & Hle). split; assumption.
Qed.

End DigitalClock.

(** ** The properties at sample inputs *)

Abbreviation after_set :=
  (app_after sample_clock sample_strftime [Pressed "set-btn"]).
Abbreviation timer_after_prev :=
  (app_after sample_clock sample_strftime to_timer_then_prev).
Abbreviation running_stopwatch :=
  (app_after sample_clock sample_strftime to_running_stopwatch).
Abbreviation paused_stopwatch :=
  (app_after sample_clock sample_strftime to_paused_stopwatch).

Lemma sample_clock_ok : clock_ok sample_clock.
Proof.
  split; intros n.
  - unfold wf_datetime, sample_clock, MAXORDINAL, US_PER_SECOND.
    cbn [ordinal hour minute second microsecond]. lia.
  - unfold to_us, sample_clock, US_PER_SECOND.
    cbn [ordinal hour minute second microsecond]. lia.
Defined.

(** C1 does not hold as a no-op: after startup one press of SET puts the
    watch in [SET_HOUR], and MODE pressed there returns normally with the
    mode changed to [TIME]. *)
Lemma mode_button_in_SET_HOUR_changes_mode :
  mode (self after_set) = SET_HOUR /\
  is_setting (mode (self after_set)) = true /\
  snd (cycle_mode after_set) <> after_set /\
  mode (self (snd (cycle_mode after_set))) = TIME /\
  mode (self (snd (on_button_pressed sample_clock "mode-btn" after_set)))
  = TIME /\
  mode (self (snd (on_button_pressed sample_clock "mode-btn" after_set)))
  <> mode (self after_set).
Proof.
  vm_compute. repeat split; try reflexivity; intros H; discriminate H.
Qed.

Lemma cycle_mode_from_setting_witness :
  is_setting (mode (self editing_hour_23)) = true /\
  mode (self (snd (cycle_mode editing_hour_23))) = TIME.
Proof.
  split; [ reflexivity | ].
  destruct (cycle_mode_from_setting_resets_to_TIME editing_hour_23 eq_refl)
    as (_ & _ & Hmode & _).
  exact Hmode.
Defined.

Lemma handle_set_four_times_witness :
  mode (self (app_after sample_clock sample_strftime [])) = TIME /\
  mode (self (snd ((handle_set ;; handle_set ;; handle_set ;; handle_set)
                     (app_after sample_clock sample_strftime [])))) = TIME.
Proof.
  assert (Hmode : mode (self (app_after sample_clock sample_strftime []))
                  = TIME) by (vm_compute; reflexivity).
  split; [ exact Hmode | ].
  destruct (handle_set_four_times_round_trip
              (app_after sample_clock sample_strftime []) Hmode)
    as (_ & Hback & _).
  exact Hback.
Defined.

Lemma handle_prev_handle_next_witness :
  is_setting (mode (self editing_hour_23)) = true /\
  edited_field (self editing_hour_23) = Some 23 /\
  0 <= 23 < field_modulus (mode (self editing_hour_23)) /\
  edited_field (self (snd (handle_next editing_hour_23))) = Some 0 /\
  (handle_next ;; handle_prev) editing_hour_23 = (Return tt, editing_hour_23).
Proof.
  split; [ reflexivity | ]. split; [ reflexivity | ].
  split; [ cbn; lia | ].
  assert (Hr : 0 <= 23 < field_modulus (mode (self editing_hour_23)))
    by (cbn; lia).
  destruct (handle_prev_handle_next_inverse editing_hour_23 23
              eq_refl eq_refl Hr)
    as (_ & (_ & Hnext) & _ & Hnp & _).
  split; [ exact Hnext | exact Hnp ].
Defined.

Lemma timer_duration_witness :
  reachable sample_clock sample_strftime timer_after_prev /\
  whole_minutes_1_99 (timer_duration (self timer_after_prev)).
Proof.
  assert (Hreach : reachable sample_clock sample_strftime timer_after_prev)
    by (exists to_timer_then_prev; vm_compute; reflexivity).
  split; [ exact Hreach | ].
  destruct (timer_duration_whole_minutes_in_range sample_clock
              sample_strftime _ Hreach) as (_ & k & Hk & Hd & _).
  exists k. split; [ exact Hk | exact Hd ].
Defined.

Lemma running_flags_witness :
  reachable sample_clock sample_strftime running_stopwatch /\
  stopwatch_running (self running_stopwatch) = true /\
  exists d, stopwatch_start (self running_stopwatch) = Some d.
Proof.
  assert (Hreach : reachable sample_clock sample_strftime running_stopwatch)
    by (exists to_running_stopwatch; vm_compute; reflexivity).
  assert (Hrun : stopwatch_running (self running_stopwatch) = true)
    by (vm_compute; reflexivity).
  split; [ exact Hreach | ]. split; [ exact Hrun | ].
  destruct (running_flags_imply_starts sample_clock sample_strftime running_stopwatch
              Hreach) as (Hstart & _).
  exact (Hstart Hrun).
Defined.


Lemma update_time_timer_expiry_witness :
  timer_running (self timer_overdue) = true /\
  timer_start (self timer_overdue) = Some (mk_datetime 739000 9 29 0 0) /\
  timedelta_sub (timer_duration (self timer_overdue))
    (datetime_sub (timer_reading sample_clock timer_overdue)
       (mk_datetime 739000 9 29 0 0)) = Return (-5000000) /\
  timer_running
    (self (snd (update_time sample_clock sample_strftime timer_overdue)))
  = false.
Proof.
  split; [ reflexivity | ]. split; [ reflexivity | ].
  split; [ reflexivity | ].
  destruct (update_time_timer_expiry sample_clock sample_strftime
              timer_overdue (mk_datetime 739000 9 29 0 0) (-5000000)
              eq_refl eq_refl eq_refl) as (Hexpired & _).
  apply Hexpired. lia.
Defined.

Lemma stopwatch_resume_witness :
  clock_ok sample_clock /\
  reachable sample_clock sample_strftime paused_stopwatch /\
  mode (self paused_stopwatch) = STOPWATCH /\
  stopwatch_running (self paused_stopwatch) = false /\
  stopwatch_elapsed (self paused_stopwatch) = 1000000 /\
  0 < 1000000 /\
  stopwatch_elapsed
    (self (snd (update_time sample_clock sample_strftime
                  (snd (handle_start_stop sample_clock paused_stopwatch))))) = 2000000.
Proof.
  assert (Hreach : reachable sample_clock sample_strftime paused_stopwatch)
    by (exists to_paused_stopwatch; vm_compute; reflexivity).
  assert (Hmode : mode (self paused_stopwatch) = STOPWATCH) by (vm_compute; reflexivity).
  assert (Hrun : stopwatch_running (self paused_stopwatch) = false)
    by (vm_compute; reflexivity).
  assert (He : stopwatch_elapsed (self paused_stopwatch) = 1000000)
    by (vm_compute; reflexivity).
  assert (Hpos : 0 < 1000000) by lia.
  split; [ exact sample_clock_ok | ]. split; [ exact Hreach | ].
  split; [ exact Hmode | ]. split; [ exact Hrun | ].
  split; [ exact He | ]. split; [ exact Hpos | ].
  destruct (stopwatch_resume_continues_from_elapsed sample_clock
              sample_strftime sample_clock_ok paused_stopwatch 1000000 Hreach
              Hmode Hrun He Hpos) as (_ & _ & _ & _ & Hnext).
  rewrite Hnext. vm_compute. reflexivity.
Defined.

Lemma every_operation_completes_witness :
  clock_ok sample_clock /\
  reachable sample_clock sample_strftime paused_stopwatch /\
  fst (handle_start_stop sample_clock paused_stopwatch) = Return tt.
Proof.
  assert (Hreach : reachable sample_clock sample_strftime paused_stopwatch)
    by (exists to_paused_stopwatch; vm_compute; reflexivity).
  split; [ exact sample_clock_ok | ]. split; [ exact Hreach | ].
  destruct (every_operation_completes sample_clock sample_strftime
              sample_clock_ok paused_stopwatch Hreach) as (_ & _ & _ & _ & _ & Hss & _).
  exact Hss.
Defined.

(** ** Further checks on sample inputs *)

(** The wraps of the spec: hour 23 + 1 is 0 and hour 0 - 1 is 23; second
    59 + 1 is 0. *)
Example hour_wraps_both_ways :
  edited_field (self (snd (handle_next editing_hour_23))) = Some 0 /\
  edited_field
    (self (snd (handle_prev (snd (handle_next editing_hour_23))))) = Some 23.
Proof. vm_compute. split; reflexivity. Qed.

Example second_59_wraps_to_0 :
  let a := snd ((handle_set ;; handle_set) editing_hour_23) in
  mode (self a) = SET_SECOND /\
  edited_field (self a) = Some 59 /\
  edited_field (self (snd (handle_next a))) = Some 0.
Proof. vm_compute. repeat split; reflexivity. Qed.

(** The alarm scenario of the spec: MODE, SET, NEXT three times, SET, SET
    leaves the alarm at hour 10, enabled, in [ALARM] mode. *)
Example alarm_scenario :
  let a := app_after sample_clock sample_strftime set_alarm_to_10 in
  mode (self a) = ALARM /\
  hour (alarm_time (self a)) = 10 /\
  alarm_enabled (self a) = true.
Proof. vm_compute. repeat split; reflexivity. Qed.

(** An overdue timer renders as [00:00], not as a negative time, and the
    tick that finds it overdue stops it. *)
Example overdue_timer_renders_zero :
  time_display
    (snd (update_display sample_clock sample_strftime timer_overdue))
  = "00:00"%string /\
  date_display
    (snd (update_display sample_clock sample_strftime timer_overdue))
  = EmptyString.
Proof. vm_compute. split; reflexivity. Qed.

(** Why the clock must not run backwards for resume to complete: if a tick
    sees day 3000000 and the resume sees day 2 again, the new start would
    fall before day 1 and the subtraction raises [OverflowError]. *)
Example resume_after_clock_jump_raises :
  fst ((startup jumping_clock sample_strftime ;;
        run jumping_clock sample_strftime
          (to_paused_stopwatch ++ [Pressed "start-stop-btn"])) blank)
  = Raise OverflowError.
Proof. vm_compute. reflexivity. Qed.

(** ** Further properties at sample inputs *)

Abbreviation just_started := (app_after sample_clock sample_strftime []).
Abbreviation alarm_shown :=
  (app_after sample_clock sample_strftime [Pressed "mode-btn"]).
Abbreviation fresh_stopwatch :=
  (app_after sample_clock sample_strftime
     [Pressed "mode-btn"; Pressed "mode-btn"]).
Abbreviation paused_after_jump :=
  (app_after jumping_clock sample_strftime to_paused_stopwatch).

Lemma cycle_mode_four_times_witness :
  top_level (mode (self alarm_shown)) = true /\
  (cycle_mode ;; cycle_mode ;; cycle_mode ;; cycle_mode) alarm_shown
  = (Return tt, alarm_shown).
Proof.
  assert (Hm : top_level (mode (self alarm_shown)) = true)
    by (vm_compute; reflexivity).
  exact (conj Hm (cycle_mode_four_times alarm_shown Hm)).
Defined.

Lemma handle_set_alarm_round_trip_witness :
  mode (self alarm_shown) = ALARM /\
  alarm_enabled
    (self (snd ((handle_set ;; handle_set ;; handle_set) alarm_shown)))
  = true.
Proof.
  assert (Hm : mode (self alarm_shown) = ALARM) by (vm_compute; reflexivity).
  split; [ exact Hm | ].
  destruct (handle_set_alarm_round_trip alarm_shown Hm)
    as (_ & _ & _ & _ & Hen & _).
  exact Hen.
Defined.

Lemma unlisted_buttons_witness :
  mode (self running_stopwatch) = STOPWATCH /\
  stopwatch_running (self running_stopwatch) = true /\
  mode (self just_started) = TIME /\
  handle_set running_stopwatch = (Return tt, running_stopwatch) /\
  handle_light running_stopwatch = (Return tt, running_stopwatch) /\
  handle_prev just_started = (Return tt, just_started) /\
  handle_start_stop sample_clock just_started = (Return tt, just_started).
Proof.
  assert (Hm : mode (self running_stopwatch) = STOPWATCH)
    by (vm_compute; reflexivity).
  assert (Hr : stopwatch_running (self running_stopwatch) = true)
    by (vm_compute; reflexivity).
  assert (Ht : mode (self just_started) = TIME) by (vm_compute; reflexivity).
  destruct (unlisted_buttons_do_nothing sample_clock running_stopwatch)
    as (Hset & _ & _ & Hlight).
  destruct (unlisted_buttons_do_nothing sample_clock just_started)
    as (_ & Hprev & Hss & _).
  split; [ exact Hm | ]. split; [ exact Hr | ]. split; [ exact Ht | ].
  split; [ exact (Hset (or_introl Hm)) | ].
  split.
  - apply Hlight.
    + intros _. exact Hr.
    + intros H. rewrite Hm in H. discriminate H.
  - split; [ exact (proj1 (Hprev (or_introl Ht)))
           | exact (Hss (or_introl Ht)) ].
Defined.

Lemma only_MODE_and_SET_change_mode_witness :
  "prev-btn"%string <> "mode-btn"%string /\
  "prev-btn"%string <> "set-btn"%string /\
  mode (self (snd (on_button_pressed sample_clock "prev-btn" after_set)))
  = mode (self after_set).
Proof.
  assert (H1 : "prev-btn"%string <> "mode-btn"%string)
    by (intros H; discriminate H).
  assert (H2 : "prev-btn"%string <> "set-btn"%string)
    by (intros H; discriminate H).
  split; [ exact H1 | ]. split; [ exact H2 | ].
  destruct (only_MODE_and_SET_change_mode sample_clock after_set
              "prev-btn" H1 H2) as (Hb & _).
  exact Hb.
Defined.

Lemma update_time_assigns_little_witness :
  mode (self just_started) = TIME /\
  current_time
    (self (snd (update_time sample_clock sample_strftime just_started)))
  = sample_clock (reads just_started).
Proof.
  assert (Ht : mode (self just_started) = TIME) by (vm_compute; reflexivity).
  split; [ exact Ht | ].
  destruct (update_time_assigns_little sample_clock sample_strftime
              just_started) as (_ & _ & _ & _ & _ & _ & _ & Htime & _).
  exact (proj1 (Htime Ht)).
Defined.

Lemma update_time_blink_witness :
  fst (update_time sample_clock sample_strftime editing_hour_23)
  = Return tt /\
  blink_state
    (self (snd (update_time sample_clock sample_strftime editing_hour_23)))
  = false.
Proof.
  assert (Hret : fst (update_time sample_clock sample_strftime
                        editing_hour_23) = Return tt)
    by (vm_compute; reflexivity).
  split; [ exact Hret | ].
  rewrite (update_time_blink sample_clock sample_strftime editing_hour_23
             Hret).
  reflexivity.
Defined.

Lemma set_time_lasts_until_next_tick_witness :
  mode (self editing_second_59) = SET_SECOND /\
  current_time
    (self (snd (update_time sample_clock sample_strftime
                  (snd (handle_set editing_second_59)))))
  = sample_clock 2.
Proof.
  split; [ reflexivity | ].
  destruct (set_time_lasts_until_next_tick sample_clock sample_strftime
              editing_second_59 eq_refl) as (_ & _ & _ & Hnow & _).
  exact Hnow.
Defined.

Lemma ticks_keep_stopped_witness :
  stopwatch_running (self paused_stopwatch) = false /\
  stopwatch_elapsed
    (self (snd (run sample_clock sample_strftime (ticks 3)
                  paused_stopwatch)))
  = 1000000.
Proof.
  assert (Hr : stopwatch_running (self paused_stopwatch) = false)
    by (vm_compute; reflexivity).
  assert (He : stopwatch_elapsed (self paused_stopwatch) = 1000000)
    by (vm_compute; reflexivity).
  split; [ exact Hr | ].
  destruct (ticks_keep_stopped_things_stopped sample_clock sample_strftime
              3 paused_stopwatch) as (Hs & _).
  destruct (Hs Hr) as (_ & Hsame & _).
  rewrite Hsame. exact He.
Defined.

Lemma stopwatch_first_start_witness :
  mode (self fresh_stopwatch) = STOPWATCH /\
  stopwatch_running (self fresh_stopwatch) = false /\
  stopwatch_start (self fresh_stopwatch) = None /\
  stopwatch_running
    (self (snd (handle_start_stop sample_clock fresh_stopwatch))) = true.
Proof.
  assert (Hm : mode (self fresh_stopwatch) = STOPWATCH)
    by (vm_compute; reflexivity).
  assert (Hr : stopwatch_running (self fresh_stopwatch) = false)
    by (vm_compute; reflexivity).
  assert (Hs : stopwatch_start (self fresh_stopwatch) = None)
    by (vm_compute; reflexivity).
  split; [ exact Hm | ]. split; [ exact Hr | ]. split; [ exact Hs | ].
  destruct (stopwatch_first_start sample_clock sample_strftime
              fresh_stopwatch Hm Hr Hs) as (_ & _ & _ & Hrun & _).
  exact Hrun.
Defined.

Lemma handle_light_resets_stopwatch_witness :
  mode (self paused_stopwatch) = STOPWATCH /\
  stopwatch_running (self paused_stopwatch) = false /\
  stopwatch_elapsed
    (self (snd ((handle_light ;; handle_start_stop sample_clock)
                  paused_stopwatch)))
  = timedelta_zero.
Proof.
  assert (Hm : mode (self paused_stopwatch) = STOPWATCH)
    by (vm_compute; reflexivity).
  assert (Hr : stopwatch_running (self paused_stopwatch) = false)
    by (vm_compute; reflexivity).
  split; [ exact Hm | ]. split; [ exact Hr | ].
  destruct (handle_light_resets_stopwatch sample_clock paused_stopwatch
              Hm Hr) as (_ & _ & _ & Hzero & _).
  exact Hzero.
Defined.

Lemma stopwatch_stop_freezes_witness :
  mode (self running_stopwatch) = STOPWATCH /\
  stopwatch_running (self running_stopwatch) = true /\
  stopwatch_running
    (self (snd (run sample_clock sample_strftime (ticks 2)
                  (snd (handle_start_stop sample_clock running_stopwatch)))))
  = false.
Proof.
  assert (Hm : mode (self running_stopwatch) = STOPWATCH)
    by (vm_compute; reflexivity).
  assert (Hr : stopwatch_running (self running_stopwatch) = true)
    by (vm_compute; reflexivity).
  split; [ exact Hm | ]. split; [ exact Hr | ].
  destruct (stopwatch_stop_freezes_elapsed sample_clock sample_strftime 2
              running_stopwatch Hm Hr) as (_ & _ & Hstill & _).
  exact Hstill.
Defined.

Lemma timer_start_stop_witness :
  mode (self timer_55_seconds_left) = TIMER /\
  timer_running (self timer_55_seconds_left) = true /\
  timer_start
    (self (snd ((handle_start_stop sample_clock ;;
                 handle_start_stop sample_clock) timer_55_seconds_left)))
  = Some (sample_clock 5).
Proof.
  split; [ reflexivity | ]. split; [ reflexivity | ].
  destruct (timer_start_stop sample_clock timer_55_seconds_left eq_refl)
    as (_ & Hrunning).
  destruct (Hrunning eq_refl) as (_ & _ & _ & Hstart & _).
  exact Hstart.
Defined.

Lemma timer_prev_next_witness :
  mode (self timer_55_seconds_left) = TIMER /\
  timer_duration (self timer_55_seconds_left) = timedelta_minutes 1 /\
  1 <= 1 <= 99 /\
  timer_duration
    (self (snd ((handle_prev ;; handle_next) timer_55_seconds_left)))
  = timedelta_minutes 2.
Proof.
  assert (Hk : 1 <= 1 <= 99) by lia.
  split; [ reflexivity | ]. split; [ reflexivity | ]. split; [ exact Hk | ].
  destruct (timer_prev_next_at_the_stops timer_55_seconds_left 1
              eq_refl eq_refl Hk) as (Hpn & _).
  exact Hpn.
Defined.

Lemma alarm_toggle_witness :
  mode (self alarm_shown) = ALARM /\
  (handle_start_stop sample_clock ;; handle_start_stop sample_clock)
    alarm_shown
  = (Return tt, alarm_shown).
Proof.
  assert (Hm : mode (self alarm_shown) = ALARM) by (vm_compute; reflexivity).
  split; [ exact Hm | ].
  destruct (alarm_toggle sample_clock alarm_shown Hm) as (_ & Htwice).
  exact Htwice.
Defined.

Lemma five_handlers_never_raise_witness :
  "prev-btn"%string <> "start-stop-btn"%string /\
  fst (on_button_pressed sample_clock "prev-btn" editing_hour_23)
  = Return tt.
Proof.
  assert (H1 : "prev-btn"%string <> "start-stop-btn"%string)
    by (intros H; discriminate H).
  split; [ exact H1 | ].
  destruct (five_handlers_never_raise sample_clock editing_hour_23
              "prev-btn" H1) as (_ & _ & _ & _ & _ & Hb).
  exact Hb.
Defined.

Lemma handle_start_stop_raises_witness :
  fst (handle_start_stop jumping_clock paused_after_jump)
  = Raise OverflowError /\
  mode (self paused_after_jump) = STOPWATCH /\
  stopwatch_running (self paused_after_jump) = false.
Proof.
  assert (Hraise : fst (handle_start_stop jumping_clock paused_after_jump)
                   = Raise OverflowError) by (vm_compute; reflexivity).
  split; [ exact Hraise | ].
  destruct (handle_start_stop_raises_only_on_resume jumping_clock
              paused_after_jump OverflowError Hraise)
    as (_ & Hm & Hr & _).
  split; [ exact Hm | exact Hr ].
Defined.

Lemma render_and_tick_raise_witness :
  fst (update_display sample_clock sample_strftime timer_overflowing)
  = Raise OverflowError /\
  fst (update_time sample_clock sample_strftime timer_overflowing)
  = Raise OverflowError /\
  mode (self timer_overflowing) = TIMER /\
  timer_running (self timer_overflowing) = true.
Proof.
  assert (Hd : fst (update_display sample_clock sample_strftime
                      timer_overflowing) = Raise OverflowError)
    by (vm_compute; reflexivity).
  assert (Ht : fst (update_time sample_clock sample_strftime
                      timer_overflowing) = Raise OverflowError)
    by (vm_compute; reflexivity).
  split; [ exact Hd | ]. split; [ exact Ht | ].
  destruct (render_and_tick_raise_only_on_timer_arithmetic sample_clock
              sample_strftime timer_overflowing OverflowError)
    as (Hrender & Htick).
  destruct (Hrender Hd) as (_ & Hm & _).
  destruct (Htick Ht) as (_ & Hr & _).
  split; [ exact Hm | exact Hr ].
Defined.

Lemma reachable_datetimes_valid_witness :
  (forall n, wf_datetime (sample_clock n)) /\
  reachable sample_clock sample_strftime after_set /\
  wf_datetime (display_time (self after_set)).
Proof.
  assert (Hreach : reachable sample_clock sample_strftime after_set)
    by (exists [Pressed "set-btn"]; vm_compute; reflexivity).
  split; [ exact (proj1 sample_clock_ok) | ]. split; [ exact Hreach | ].
  destruct (reachable_datetimes_valid sample_clock sample_strftime
              (proj1 sample_clock_ok) after_set Hreach) as (_ & Hd & _).
  exact Hd.
Defined.

Lemma update_display_clock_face_witness :
  mode_in (mode (self editing_minute_blank))
    [TIME; SET_HOUR; SET_MINUTE; SET_SECOND] = true /\
  wf_datetime (display_time (self editing_minute_blank)) /\
  time_display
    (snd (update_display sample_clock sample_strftime editing_minute_blank))
  = "23:  :59"%string.
Proof.
  assert (Hwf : wf_datetime (display_time (self editing_minute_blank)))
    by (unfold wf_datetime, MAXORDINAL, US_PER_SECOND; cbn; lia).
  split; [ reflexivity | ]. split; [ exact Hwf | ].
  destruct (update_display_clock_face sample_clock sample_strftime
              editing_minute_blank eq_refl Hwf) as (_ & Hshown & _).
  rewrite Hshown. reflexivity.
Defined.

Lemma update_display_alarm_face_witness :
  mode_in (mode (self editing_hour_23))
    [ALARM; SET_ALARM_HOUR; SET_ALARM_MINUTE] = false /\
  mode_in (mode (self (snd (cycle_mode (snd (cycle_mode editing_hour_23))))))
    [ALARM; SET_ALARM_HOUR; SET_ALARM_MINUTE] = true /\
  wf_datetime
    (alarm_time (self (snd (cycle_mode (snd (cycle_mode editing_hour_23)))))) /\
  time_display
    (snd (update_display sample_clock sample_strftime
            (snd (cycle_mode (snd (cycle_mode editing_hour_23))))))
  = "07:00"%string.
Proof.
  assert (Hwf : wf_datetime
                  (alarm_time
                     (self (snd (cycle_mode
                                   (snd (cycle_mode editing_hour_23)))))))
    by (unfold wf_datetime; vm_compute; repeat split;
        first [ reflexivity | intros H; discriminate H ]).
  split; [ reflexivity | ]. split; [ reflexivity | ]. split; [ exact Hwf | ].
  destruct (update_display_alarm_face sample_clock sample_strftime
              (snd (cycle_mode (snd (cycle_mode editing_hour_23))))
              eq_refl Hwf) as (_ & Hshown & _).
  rewrite Hshown. reflexivity.
Defined.

Lemma update_display_stopwatch_face_witness :
  mode (self paused_stopwatch) = STOPWATCH /\
  0 <= stopwatch_elapsed (self paused_stopwatch) < 6000 * US_PER_SECOND /\
  time_display
    (snd (update_display sample_clock sample_strftime paused_stopwatch))
  = "00:01.00"%string.
Proof.
  assert (Hm : mode (self paused_stopwatch) = STOPWATCH)
    by (vm_compute; reflexivity).
  assert (He : stopwatch_elapsed (self paused_stopwatch) = 1000000)
    by (vm_compute; reflexivity).
  assert (Hrange : 0 <= stopwatch_elapsed (self paused_stopwatch)
                   < 6000 * US_PER_SECOND)
    by (rewrite He; unfold US_PER_SECOND; lia).
  split; [ exact Hm | ]. split; [ exact Hrange | ].
  destruct (update_display_stopwatch_face sample_clock sample_strftime
              paused_stopwatch Hm Hrange) as (_ & Hshown & _).
  rewrite Hshown, He. reflexivity.
Defined.

Lemma update_display_idempotent_witness :
  (mode (self editing_hour_23) = TIMER ->
   timer_running (self editing_hour_23) = true ->
   timer_start (self editing_hour_23) = None) /\
  update_display sample_clock sample_strftime
    (snd (update_display sample_clock sample_strftime editing_hour_23))
  = (Return tt,
     snd (update_display sample_clock sample_strftime editing_hour_23)).
Proof.
  assert (Hnot : mode (self editing_hour_23) = TIMER ->
                 timer_running (self editing_hour_23) = true ->
                 timer_start (self editing_hour_23) = None)
    by (intros H; discriminate H).
  split; [ exact Hnot | ].
  destruct (update_display_idempotent sample_clock sample_strftime
              editing_hour_23 Hnot) as (_ & _ & _ & Hagain).
  exact Hagain.
Defined.

Lemma every_button_has_its_handler_witness :
  ~ In "other-btn"%string (map button_id compose_buttons) /\
  on_button_pressed sample_clock "other-btn" editing_hour_23
  = (Return tt, editing_hour_23).
Proof.
  assert (Hid : ~ In "other-btn"%string (map button_id compose_buttons)).
  { cbn [map compose_buttons button_id In]. intros H.
    repeat (destruct H as [H | H]; [ discriminate H | ]). exact H. }
  split; [ exact Hid | ].
  destruct (every_button_has_its_handler sample_clock editing_hour_23
              "other-btn" Hid) as (Hnothing & _).
  exact Hnothing.
Defined.

Lemma stopwatch_elapsed_bounded_witness :
  clock_ok sample_clock /\
  reachable sample_clock sample_strftime paused_stopwatch /\
  0 <= stopwatch_elapsed (self paused_stopwatch).
Proof.
  assert (Hreach : reachable sample_clock sample_strftime paused_stopwatch)
    by (exists to_paused_stopwatch; vm_compute; reflexivity).
  split; [ exact sample_clock_ok | ]. split; [ exact Hreach | ].
  destruct (stopwatch_elapsed_bounded_by_clock sample_clock sample_strftime
              sample_clock_ok paused_stopwatch Hreach) as (Hpos & _).
  exact Hpos.
Defined.
